(** * go-simple-whatsapp-gateway: the session registry and the session state machine

    A shallow embedding of package [whatsapp] (the [ClientManager] and the
    [Client] files) and the properties of its lifecycle operations.

    Conventions of the embedding:
    - a method with a pointer receiver takes the receiver's value and returns
      the updated value next to its Go results;
    - a Go [error] result is an [option error] ([None] is [nil]); a
      [(T, error)] result is a pair or a sum;
    - [time.Now()] is an argument [now] of the operation that reads it;
    - the mutexes are not modelled: every operation runs alone, which is what
      the locks give the parts of an operation that touch the fields;
    - the protocol engine ([*whatsmeow.Client]) and the operating system are
      interfaces ([Engine], [Platform]): the gateway's code is modelled, theirs
      is whatever an instance says. *)

From Stdlib Require Import ZArith String Ascii List.
From stdpp Require Import gmap strings list fin_maps.

Local Open Scope string_scope.
Local Open Scope Z_scope.

(** ** Go errors *)

(** [errors.New(text)] and [fmt.Errorf(prefix + "%w", cause)].  A
    [fmt.Errorf] whose format has no [%w] verb only builds a text: it is an
    [errors_New] of the formatted string. *)
Inductive error : Type :=
| errors_New (text : string)
| fmt_Errorf_w (prefix : string) (cause : error).

(** [err.Error()] *)
Fixpoint Error (e : error) : string :=
  match e with
  | errors_New text => text
  | fmt_Errorf_w prefix cause => prefix ++ Error cause
  end.

(** ** Time *)

(** An instant ([time.Time]) and a duration ([time.Duration], nanoseconds). *)
Definition time_Time : Type := Z.
Definition time_Duration : Type := Z.
Definition time_Second : time_Duration := 1000000000.
Definition time_Minute : time_Duration := 60 * time_Second.

(** ** Client status and persistent state *)

(** [type ClientStatus string] with its four constants. *)
Definition ClientStatus : Type := string.
Definition StatusLoggedOut : ClientStatus := "logged_out".
Definition StatusConnected : ClientStatus := "connected".
Definition StatusDisconnected : ClientStatus := "disconnected".
Definition StatusError : ClientStatus := "error".

Record ClientState : Type := mkClientState {
  cs_ID : string;
  cs_Status : ClientStatus;
  cs_LastActivity : time_Time;
  cs_Connected : bool;
  cs_LoggedIn : bool;
  cs_PushName : string;
  cs_PhoneNumber : string;
  cs_ConnectionError : string
}.

(** ** The protocol engine *)

(** An item of the engine's QR channel ([whatsmeow.QRChannelItem]); the
    gateway reads [Event] and [Code]. *)
Record QRChannelItem : Type := mkQRItem { Event : string; Code : string }.

(** The receive-only channel [GetQRChannel] returns, as its one reader sees it:
    the first item it delivers with the time, counted from the moment the
    reader starts to wait, at which that item is ready; [None] when nothing is
    ever delivered.  A closed channel is [Some (0, zero item)]. *)
Definition QRChan : Type := option (time_Duration * QRChannelItem).

(** The engine events the gateway's handler distinguishes by type. *)
Inductive Event_t : Type :=
| events_QR
| events_Connected
| events_Disconnected
| events_Other (kind : string).

(** The calls the gateway makes on [*whatsmeow.Client] ([E] is the engine's
    state, device store included; [JID] is [types.JID]). *)
Class Engine (JID E : Type) : Type := {
  IsConnected : E -> bool;
  IsLoggedIn : E -> bool;
  engine_Connect : E -> E * option error;
  engine_Disconnect : E -> E;
  engine_Logout : E -> E * option error;
  GetQRChannel : E -> E * (QRChan + error);
  engine_SendMessage : E -> JID -> string -> E * option error;
  (** [Store.ID] (nil until paired) and [Store.PushName] *)
  Store_ID : E -> option JID;
  Store_PushName : E -> string;
  (** [types.ParseJID] and the fields of a JID the gateway reads *)
  types_ParseJID : string -> JID + error;
  JID_User : JID -> string;
  JID_Server : JID -> string
}.

(** [types.DefaultUserServer] *)
Definition DefaultUserServer : string := "s.whatsapp.net".

(** The engine calls that change something, for engines that keep a log. *)
Inductive EngineCall (JID : Type) : Type :=
| CallConnect
| CallDisconnect
| CallLogout
| CallGetQRChannel
| CallSendMessage (to : JID) (text : string).
Arguments CallConnect {JID}.
Arguments CallDisconnect {JID}.
Arguments CallLogout {JID}.
Arguments CallGetQRChannel {JID}.
Arguments CallSendMessage {JID} to text.

(** Any engine, with the list of the calls made on it (latest last). *)
Definition Traced (JID E : Type) : Type := E * list (EngineCall JID).

Definition traced_step {JID E A : Type} (call : EngineCall JID)
    (r : E * A) (log : list (EngineCall JID)) : Traced JID E * A :=
  ((fst r, (log ++ [call])%list), snd r).

#[export] Instance traced_engine {JID E : Type} `{!Engine JID E} :
    Engine JID (Traced JID E) := {
  IsConnected t := IsConnected (fst t);
  IsLoggedIn t := IsLoggedIn (fst t);
  engine_Connect t := traced_step CallConnect (engine_Connect (fst t)) (snd t);
  engine_Disconnect t := (engine_Disconnect (fst t), (snd t ++ [CallDisconnect])%list);
  engine_Logout t := traced_step CallLogout (engine_Logout (fst t)) (snd t);
  GetQRChannel t := traced_step CallGetQRChannel (GetQRChannel (fst t)) (snd t);
  engine_SendMessage t jid text :=
    traced_step (CallSendMessage jid text) (engine_SendMessage (fst t) jid text) (snd t);
  Store_ID t := Store_ID (fst t);
  Store_PushName t := Store_PushName (fst t);
  types_ParseJID := types_ParseJID (E := E);
  JID_User := JID_User (E := E);
  JID_Server := JID_Server (E := E)
}.

(** ** Channels and timers of a client *)

(** An unbuffered [chan string] seen from a sender that never blocks:
    [parked] readers are waiting; a send succeeds only to a parked reader. *)
Record Chan : Type := mkChan { parked : nat; received : list string }.

(** [make(chan string)] *)
Definition make_chan : Chan := mkChan 0 [].

(** [select { case ch <- v: default: }] *)
Definition try_send (ch : Chan) (v : string) : Chan :=
  match parked ch with
  | O => ch
  | S n => mkChan n (received ch ++ [v])%list
  end.

(** [*time.Timer]: armed to fire after a duration, or stopped. *)
Inductive Timer : Type :=
| TimerArmed (d : time_Duration)
| TimerStopped.

(** ** The client *)

Section ClientModel.
Context {JID E : Type} `{!Engine JID E}.

(** A custom event handler is known by a name; calling it is an effect
    outside the client, reported by [handleEvent]. *)
Definition Handler : Type := nat.

(** [type Client struct].  [client] is the engine; [container] and
    [deviceStore] are the database handle and the device store the engine
    was built from: [deviceStore] is the same object as the engine's
    [Store], so both are read through [client]. *)
Record Client : Type := mkClient {
  ID : string;
  client : E;
  eventHandler : option Handler;
  status : ClientStatus;
  lastActivity : time_Time;
  connError : string;
  qrChan : option Chan;
  qrTimeout : option Timer;
  pairChan : option Chan;
  pairTimeout : option Timer;
  dataDir : string
}.

Definition set_client (e : E) (c : Client) : Client :=
  mkClient (ID c) e (eventHandler c) (status c) (lastActivity c) (connError c)
           (qrChan c) (qrTimeout c) (pairChan c) (pairTimeout c) (dataDir c).
Definition set_eventHandler (h : option Handler) (c : Client) : Client :=
  mkClient (ID c) (client c) h (status c) (lastActivity c) (connError c)
           (qrChan c) (qrTimeout c) (pairChan c) (pairTimeout c) (dataDir c).
Definition set_status (s : ClientStatus) (c : Client) : Client :=
  mkClient (ID c) (client c) (eventHandler c) s (lastActivity c) (connError c)
           (qrChan c) (qrTimeout c) (pairChan c) (pairTimeout c) (dataDir c).
Definition set_lastActivity (t : time_Time) (c : Client) : Client :=
  mkClient (ID c) (client c) (eventHandler c) (status c) t (connError c)
           (qrChan c) (qrTimeout c) (pairChan c) (pairTimeout c) (dataDir c).
Definition set_connError (msg : string) (c : Client) : Client :=
  mkClient (ID c) (client c) (eventHandler c) (status c) (lastActivity c) msg
           (qrChan c) (qrTimeout c) (pairChan c) (pairTimeout c) (dataDir c).
Definition set_qrChan (ch : option Chan) (c : Client) : Client :=
  mkClient (ID c) (client c) (eventHandler c) (status c) (lastActivity c) (connError c)
           ch (qrTimeout c) (pairChan c) (pairTimeout c) (dataDir c).

(** The failed transition every lifecycle operation records:
    [c.status = StatusError; c.connError = err.Error()]. *)
Definition record_failure (err : error) (c : Client) : Client :=
  set_connError (Error err) (set_status StatusError c).

(** *** Connect *)
Definition Connect (c : Client) (now : time_Time) : Client * option error :=
  let c := set_lastActivity now c in
  if IsConnected (client c) then (c, None)
  else
    match engine_Connect (client c) with
    | (e, Some err) =>
        (record_failure err (set_client e c),
         Some (fmt_Errorf_w "failed to connect: " err))
    | (e, None) =>
        let c := set_client e c in
        if IsLoggedIn (client c)
        then (set_status StatusConnected c, None)
        else (set_status StatusDisconnected c, None)
    end.

(** *** Disconnect *)
Definition Disconnect (c : Client) (now : time_Time) : Client * option error :=
  let c := set_lastActivity now c in
  if negb (IsConnected (client c)) then (c, None)
  else
    let c := set_client (engine_Disconnect (client c)) c in
    (set_status StatusDisconnected c, None).

(** *** Logout *)
Definition Logout (c : Client) (now : time_Time) : Client * option error :=
  let c := set_lastActivity now c in
  if negb (IsLoggedIn (client c)) then (c, None)
  else
    match engine_Logout (client c) with
    | (e, Some err) =>
        (record_failure err (set_client e c),
         Some (fmt_Errorf_w "failed to logout: " err))
    | (e, None) => (set_status StatusLoggedOut (set_client e c), None)
    end.

(** *** GenerateQR *)

(** [30 * time.Second] *)
Definition qr_wait : time_Duration := 30 * time_Second.

(** What the [select] over the QR channel and [time.After(30s)] takes. *)
Inductive Selected : Type :=
| FromQRChan (evt : QRChannelItem)
| FromTimeAfter.

(** The case that is ready first is taken; when both are ready at the same
    instant Go picks one at random ([tie] is that pick). *)
Definition select_qr (ch : QRChan) (tie : bool) : Selected :=
  match ch with
  | None => FromTimeAfter
  | Some (t, evt) =>
      if t <? qr_wait then FromQRChan evt
      else if t =? qr_wait then (if tie then FromQRChan evt else FromTimeAfter)
      else FromTimeAfter
  end.

Definition outdated_message : string :=
  "WhatsApp Web client outdated. Please update the whatsmeow library or try again later.".

(** The body of the [case evt := <-qrChan] branch. *)
Definition qr_event_result (evt : QRChannelItem) : string * option error :=
  if decide (Event evt = "code") then (Code evt, None)
  else if decide (Event evt = "err-client-outdated")
  then ("", Some (errors_New outdated_message))
  else ("", Some (errors_New ("unexpected QR event: " ++ Event evt))).

Definition GenerateQR (c : Client) (now : time_Time) (tie : bool)
    : Client * (string * option error) :=
  let c := set_lastActivity now c in
  if IsLoggedIn (client c) then (c, ("", Some (errors_New "already logged in")))
  else
    let e := client c in
    let e := if IsConnected e then engine_Disconnect e else e in
    match GetQRChannel e with
    | (e, inr err) =>
        (record_failure err (set_client e c),
         ("", Some (fmt_Errorf_w "failed to request QR: " err)))
    | (e, inl ch) =>
        match engine_Connect e with
        | (e, Some err) =>
            (record_failure err (set_client e c),
             ("", Some (fmt_Errorf_w "failed to connect: " err)))
        | (e, None) =>
            let c := set_client e c in
            match select_qr ch tie with
            | FromQRChan evt => (c, qr_event_result evt)
            | FromTimeAfter =>
                (c, ("", Some (errors_New "timeout waiting for QR code")))
            end
        end
    end.

(** *** PairPhone and GetPairingCode *)
Definition PairPhone (c : Client) (phoneNumber : string) : Client * option error :=
  (c, Some (errors_New
    "phone pairing is not available in the current library version, please use QR code authentication")).

Definition GetPairingCode (c : Client) : Client * (string * option error) :=
  (c, ("", Some (errors_New
    "phone pairing is not available in the current library version"))).

(** *** SendMessage *)

(** [strings.Contains(s, sub)] *)
Fixpoint strings_Contains (s sub : string) : bool :=
  if String.prefix sub s then true
  else match s with
       | EmptyString => false
       | String _ rest => strings_Contains rest sub
       end.

(** [if len(recipient) > 0 && recipient[0] == '+' { recipient = recipient[1:] }] *)
Definition drop_plus (recipient : string) : string :=
  match recipient with
  | String first rest => if Ascii.eqb first "+" then rest else recipient
  | EmptyString => recipient
  end.

(** [if !strings.Contains(recipient, "@") { recipient = recipient + "@s.whatsapp.net" }] *)
Definition add_user_server (recipient : string) : string :=
  if negb (strings_Contains recipient "@")
  then recipient ++ "@s.whatsapp.net"
  else recipient.

(** The recipient formatting at the head of [SendMessage]: the two
    statements above, in that order. *)
Definition format_recipient (recipient : string) : string :=
  add_user_server (drop_plus recipient).

Definition SendMessage (c : Client) (now : time_Time) (recipient message : string)
    : Client * option error :=
  let c := set_lastActivity now c in
  if negb (IsConnected (client c)) then (c, Some (errors_New "not connected"))
  else if negb (IsLoggedIn (client c)) then (c, Some (errors_New "not logged in"))
  else
    let recipient := format_recipient recipient in
    match types_ParseJID (E := E) recipient with
    | inr err => (c, Some (fmt_Errorf_w "invalid recipient: " err))
    | inl jid =>
        if negb (String.eqb (JID_Server (E := E) jid) DefaultUserServer)
        then (c, Some (errors_New "invalid recipient: not a user JID"))
        else if String.eqb (JID_User (E := E) jid) ""
        then (c, Some (errors_New "invalid recipient: empty user"))
        else
          match engine_SendMessage (client c) jid message with
          | (e, Some err) =>
              (set_client e c, Some (fmt_Errorf_w "failed to send message: " err))
          | (e, None) => (set_client e c, None)
          end
    end.

(** *** GetState *)
Definition GetState (c : Client) : ClientState :=
  let connected := IsConnected (client c) in
  let loggedIn := IsLoggedIn (client c) in
  let status :=
    if loggedIn then StatusConnected
    else if connected then StatusDisconnected
    else status c in
  let pushName :=
    if negb (String.eqb (Store_PushName (client c)) "")
    then Store_PushName (client c) else "" in
  let phoneNumber :=
    if loggedIn
    then match Store_ID (client c) with
         | Some id => JID_User (E := E) id
         | None => ""
         end
    else "" in
  mkClientState (ID c) status (lastActivity c) connected loggedIn
                pushName phoneNumber (connError c).

(** *** Close *)
Definition Close (c : Client) : Client * option error :=
  if IsConnected (client c)
  then (set_client (engine_Disconnect (client c)) c, None)
  else (c, None).

(** *** handleEvent and SetEventHandler *)

(** The result is the client and the call made to the custom handler. *)
Definition handleEvent (c : Client) (now : time_Time) (evt : Event_t)
    : Client * option (Handler * Event_t) :=
  let c := set_lastActivity now c in
  let c :=
    match evt with
    | events_QR =>
        match qrChan c with
        | Some ch => set_qrChan (Some (try_send ch "qr_event_received")) c
        | None => c
        end
    | events_Connected => set_connError "" (set_status StatusConnected c)
    | events_Disconnected =>
        if IsLoggedIn (client c)
        then set_status StatusDisconnected c
        else set_status StatusLoggedOut c
    | events_Other _ => c
    end in
  match eventHandler c with
  | Some h => (c, Some (h, evt))
  | None => (c, None)
  end.

Definition SetEventHandler (c : Client) (handler : option Handler) : Client :=
  set_eventHandler handler c.

End ClientModel.

Arguments Client : clear implicits.

(** ** The operating system and the libraries under the registry *)

(** [os.DirEntry] *)
Record DirEntry : Type := mkDirEntry { Name : string; IsDir : bool }.

(** What the registry asks of its platform; [W] is the state of the world
    (file system, standard output, clock). *)
Class Platform (W E : Type) : Type := {
  (** [*sqlstore.Container] and [*store.Device] *)
  Container : Type;
  Device : Type;
  filepath_Join : list string -> string;
  os_MkdirAll : W -> string -> W * option error;
  os_ReadDir : W -> string -> list DirEntry + error;
  (** [os.IsNotExist] of the error of [os.Stat] *)
  os_Stat_IsNotExist : W -> string -> bool;
  os_ReadFile : W -> string -> string + error;
  os_WriteFile : W -> string -> string -> W * option error;
  os_RemoveAll : W -> string -> W * option error;
  fmt_Printf : W -> string -> W;
  time_Sleep : W -> time_Duration -> W;
  time_Now : W -> time_Time;
  json_Unmarshal : string -> ClientState + error;
  json_MarshalIndent : ClientState -> string + error;
  sqlstore_New : W -> string -> W * (Container + error);
  GetFirstDevice : W -> Container -> W * (Device + error);
  whatsmeow_NewClient : Device -> E
}.

(** The calls that write, for platforms that keep a log. *)
Inductive SysCall : Type :=
| SysMkdirAll (path : string)
| SysWriteFile (path data : string)
| SysRemoveAll (path : string)
| SysPrintf (text : string)
| SysSleep (d : time_Duration).

(** Any platform, with the list of the writing calls made on it. *)
Definition Logged (W : Type) : Type := W * list SysCall.

Definition logged_step {W A : Type} (call : SysCall) (r : W * A)
    (log : list SysCall) : Logged W * A :=
  ((fst r, (log ++ [call])%list), snd r).

#[export] Instance logged_platform {W E : Type} `{!Platform W E} :
    Platform (Logged W) E := {
  Container := Container (W := W) (E := E);
  Device := Device (W := W) (E := E);
  filepath_Join := filepath_Join (W := W) (E := E);
  os_MkdirAll t path := logged_step (SysMkdirAll path) (os_MkdirAll (E := E) (fst t) path) (snd t);
  os_ReadDir t path := os_ReadDir (E := E) (fst t) path;
  os_Stat_IsNotExist t path := os_Stat_IsNotExist (E := E) (fst t) path;
  os_ReadFile t path := os_ReadFile (E := E) (fst t) path;
  os_WriteFile t path data :=
    logged_step (SysWriteFile path data) (os_WriteFile (E := E) (fst t) path data) (snd t);
  os_RemoveAll t path := logged_step (SysRemoveAll path) (os_RemoveAll (E := E) (fst t) path) (snd t);
  fmt_Printf t text := (fmt_Printf (E := E) (fst t) text, (snd t ++ [SysPrintf text])%list);
  time_Sleep t d := (time_Sleep (E := E) (fst t) d, (snd t ++ [SysSleep d])%list);
  time_Now t := time_Now (E := E) (fst t);
  json_Unmarshal := json_Unmarshal (W := W) (E := E);
  json_MarshalIndent := json_MarshalIndent (W := W) (E := E);
  sqlstore_New t dsn :=
    let r := sqlstore_New (E := E) (fst t) dsn in ((fst r, snd t), snd r);
  GetFirstDevice t container :=
    let r := GetFirstDevice (E := E) (fst t) container in ((fst r, snd t), snd r);
  whatsmeow_NewClient := whatsmeow_NewClient (W := W) (E := E)
}.

(** ** Iteration over a Go map *)

(** The order of a [range] over a map is not specified.  [seed] stands for
    the runtime's choice: its head picks the first entry among those present,
    the rest of it orders the others the same way.  Every order is the order
    of some seed. *)
Fixpoint pick_order {A : Type} (n : nat) (seed : list nat) (l : list A) : list A :=
  match n with
  | O => []
  | S n' =>
      let i := (hd 0 seed mod length l)%nat in
      match l !! i with
      | Some x => x :: pick_order n' (tl seed) (delete i l)
      | None => []
      end
  end.

Definition range_order {V : Type} (seed : list nat) (m : gmap string V)
    : list (string * V) :=
  pick_order (length (map_to_list m)) seed (map_to_list m).

Definition newline : string := String "010"%char "".

(** ** The registry *)

Section Registry.
Context {JID E W : Type} `{!Engine JID E} `{!Platform W E}.

(** [type ClientManager struct].  The map holds pointers: a call on a client
    found in the map changes the entry. *)
Record ClientManager : Type := mkClientManager {
  clients : gmap string (Client E);
  defaultClient : string;
  cm_dataDir : string;
  saveTimer : option Timer
}.

Definition set_clients (m : gmap string (Client E)) (cm : ClientManager) : ClientManager :=
  mkClientManager m (defaultClient cm) (cm_dataDir cm) (saveTimer cm).
Definition set_defaultClient (id : string) (cm : ClientManager) : ClientManager :=
  mkClientManager (clients cm) id (cm_dataDir cm) (saveTimer cm).
Definition set_saveTimer (t : option Timer) (cm : ClientManager) : ClientManager :=
  mkClientManager (clients cm) (defaultClient cm) (cm_dataDir cm) t.

(** *** NewClient *)
Definition NewClient (w : W) (id dataDir : string) : W * (Client E + error) :=
  if decide (id = "") then (w, inr (errors_New "client ID cannot be empty"))
  else
    let clientDir := filepath_Join (W := W) (E := E) [dataDir; id] in
    match os_MkdirAll (E := E) w clientDir with
    | (w, Some err) =>
        (w, inr (fmt_Errorf_w "failed to create client directory: " err))
    | (w, None) =>
        let dbPath := filepath_Join (W := W) (E := E) [clientDir; "whatsapp.db"] in
        match sqlstore_New (E := E) w ("file:" ++ dbPath ++ "?_foreign_keys=on") with
        | (w, inr err) =>
            (w, inr (fmt_Errorf_w "failed to connect to database: " err))
        | (w, inl container) =>
            match GetFirstDevice w container with
            | (w, inr err) => (w, inr (fmt_Errorf_w "failed to get device: " err))
            | (w, inl deviceStore) =>
                let wac := whatsmeow_NewClient (W := W) deviceStore in
                (w, inl (mkClient id wac None StatusLoggedOut (time_Now (E := E) w) ""
                                  (Some make_chan) None (Some make_chan) None
                                  clientDir))
            end
        end
    end.

(** *** SaveState *)
Definition SaveState (c : Client E) (w : W) : W * option error :=
  let state := GetState c in
  match json_MarshalIndent (W := W) (E := E) state with
  | inr err => (w, Some (fmt_Errorf_w "failed to marshal state: " err))
  | inl data =>
      let stateFile := filepath_Join (W := W) (E := E) [dataDir c; "state.json"] in
      match os_WriteFile (E := E) w stateFile data with
      | (w, Some err) => (w, Some (fmt_Errorf_w "failed to write state file: " err))
      | (w, None) => (w, None)
      end
  end.

(** *** NewClientManager; the [inr] result is the panic. *)
Definition NewClientManager (w : W) (dataDir : string) : W * (ClientManager + string) :=
  match os_MkdirAll (E := E) w dataDir with
  | (w, Some err) => (w, inr ("Failed to create data directory: " ++ Error err))
  | (w, None) =>
      (w, inl (mkClientManager ∅ "" dataDir (Some (TimerArmed (5 * time_Minute)))))
  end.

(** *** SaveClients *)

(** One turn of the loop over the clients. *)
Definition save_one (w : W) (entry : string * Client E) : W :=
  match SaveState (snd entry) w with
  | (w, Some err) =>
      fmt_Printf (E := E) w
        ("Warning: Failed to save state for " ++ ID (snd entry) ++ ": "
           ++ Error err ++ newline)
  | (w, None) => w
  end.

Definition SaveClients (cm : ClientManager) (w : W) (seed : list nat) : W * option error :=
  let w := fold_left save_one (range_order seed (clients cm)) w in
  if negb (String.eqb (defaultClient cm) "")
  then
    let defaultFile := filepath_Join (W := W) (E := E) [cm_dataDir cm; "default_client"] in
    match os_WriteFile (E := E) w defaultFile (defaultClient cm) with
    | (w, Some err) => (w, Some (fmt_Errorf_w "failed to save default client: " err))
    | (w, None) => (w, None)
    end
  else (w, None).

(** *** periodicSave *)
Definition periodicSave (cm : ClientManager) (w : W) (seed : list nat) : ClientManager * W :=
  let w :=
    match SaveClients cm w seed with
    | (w, Some err) =>
        fmt_Printf (E := E) w ("Warning: Failed to save clients: " ++ Error err ++ newline)
    | (w, None) => w
    end in
  (set_saveTimer (match saveTimer cm with
                  | Some _ => Some (TimerArmed (5 * time_Minute))
                  | None => None
                  end) cm, w).

(** *** CreateClient *)
Definition CreateClient (cm : ClientManager) (w : W) (id : string)
    : ClientManager * W * (Client E + error) :=
  if decide (id = "") then (cm, w, inr (errors_New "client ID cannot be empty"))
  else
    match clients cm !! id with
    | Some _ =>
        (cm, w, inr (errors_New ("client with ID " ++ id ++ " already exists")))
    | None =>
        match NewClient w id (cm_dataDir cm) with
        | (w, inr err) => (cm, w, inr err)
        | (w, inl c) =>
            let cm := set_clients (<[id := c]> (clients cm)) cm in
            let cm :=
              if (size (clients cm) =? 1)%nat && String.eqb (defaultClient cm) ""
              then set_defaultClient id cm else cm in
            let w :=
              match SaveState c w with
              | (w, Some err) =>
                  fmt_Printf (E := E) w
                    ("Warning: Failed to save initial state for " ++ id ++ ": "
                       ++ Error err ++ newline)
              | (w, None) => w
              end in
            (cm, w, inl c)
        end
    end.

(** *** GetClient *)
Definition GetClient (cm : ClientManager) (id : string) : Client E + error :=
  let resolved :=
    if decide (id = "")
    then (if decide (defaultClient cm = "") then inr (errors_New "no default client set")
          else inl (defaultClient cm))
    else inl id in
  match resolved with
  | inr err => inr err
  | inl id =>
      match clients cm !! id with
      | Some c => inl c
      | None => inr (errors_New ("client " ++ id ++ " not found"))
      end
  end.

(** *** DeleteClient *)

(** The manual cleanup before [Close]; a client built by [NewClient] always
    has an engine, so the [nil] test of the source is always passed. *)
Definition shutdown_engine (e : E) : E :=
  let e := if IsConnected e then engine_Disconnect e else e in
  if IsLoggedIn e then fst (engine_Logout e) else e.

(** [for newDefault := range cm.clients { cm.defaultClient = newDefault; break }] *)
Definition first_in_range (seed : list nat) (m : gmap string (Client E)) (fallback : string)
    : string :=
  match range_order seed m with
  | (k, _) :: _ => k
  | [] => fallback
  end.

Definition DeleteClient (cm : ClientManager) (w : W) (id : string) (seed : list nat)
    : ClientManager * W * option error :=
  match clients cm !! id with
  | None => (cm, w, Some (errors_New ("client " ++ id ++ " not found")))
  | Some c =>
      let c := set_client (shutdown_engine (client c)) c in
      match Close c with
      | (c, Some err) => (set_clients (<[id := c]> (clients cm)) cm, w, Some err)
      | (c, None) =>
          let cm := set_clients (delete id (clients cm)) cm in
          let cm :=
            if decide (defaultClient cm = id)
            then
              let cm := set_defaultClient "" cm in
              if (0 <? size (clients cm))%nat
              then set_defaultClient (first_in_range seed (clients cm) (defaultClient cm)) cm
              else cm
            else cm in
          let w := time_Sleep (E := E) w (1 * time_Second) in
          let clientDir := filepath_Join (W := W) (E := E) [cm_dataDir cm; id] in
          let w :=
            match os_RemoveAll (E := E) w clientDir with
            | (w, Some err) =>
                fmt_Printf (E := E) w
                  ("Warning: Failed to remove client directory for " ++ id ++ ": "
                     ++ Error err ++ newline)
            | (w, None) => w
            end in
          (cm, w, None)
      end
  end.

(** *** SetDefaultClient *)
Definition SetDefaultClient (cm : ClientManager) (w : W) (id : string)
    : ClientManager * W * option error :=
  match clients cm !! id with
  | None => (cm, w, Some (errors_New ("client " ++ id ++ " not found")))
  | Some _ =>
      let cm := set_defaultClient id cm in
      let defaultFile := filepath_Join (W := W) (E := E) [cm_dataDir cm; "default_client"] in
      match os_WriteFile (E := E) w defaultFile id with
      | (w, Some err) => (cm, w, Some (fmt_Errorf_w "failed to save default client: " err))
      | (w, None) => (cm, w, None)
      end
  end.

(** *** GetDefaultClient and ListClients *)
Definition GetDefaultClient (cm : ClientManager) : string := defaultClient cm.

Definition ListClients (cm : ClientManager) (seed : list nat) : list ClientState :=
  map (fun entry => GetState (snd entry)) (range_order seed (clients cm)).

(** *** Close (of the manager) *)

(** One turn of the loop: save, then close; both failures are only printed.
    The closed client is of no use to the caller: the map is cleared next. *)
Definition close_one (w : W) (entry : string * Client E) : W :=
  let c := snd entry in
  let w :=
    match SaveState c w with
    | (w, Some err) =>
        fmt_Printf (E := E) w
          ("Warning: Failed to save state for " ++ ID c ++ ": " ++ Error err ++ newline)
    | (w, None) => w
    end in
  match Close c with
  | (_, Some err) =>
      fmt_Printf (E := E) w
        ("Warning: Failed to close client " ++ ID c ++ ": " ++ Error err ++ newline)
  | (_, None) => w
  end.

Definition ClientManager_Close (cm : ClientManager) (w : W) (seed : list nat)
    : ClientManager * W :=
  let cm :=
    match saveTimer cm with
    | Some _ => set_saveTimer (Some TimerStopped) cm
    | None => cm
    end in
  let w := fold_left close_one (range_order seed (clients cm)) w in
  (set_clients ∅ cm, w).

(** *** LoadClients *)

(** The state of the loop over the directory entries: the manager, the world
    and the clients handed to a reconnecting goroutine so far. *)
Definition LoadAcc : Type := ClientManager * W * list string.

(** One turn of the loop. *)
Definition load_one (acc : LoadAcc) (entry : DirEntry) : LoadAcc :=
  let '(cm, w, spawned) := acc in
  if negb (IsDir entry) then acc
  else
    let clientID := Name entry in
    let stateFile :=
      filepath_Join (W := W) (E := E) [cm_dataDir cm; clientID; "state.json"] in
    if os_Stat_IsNotExist (E := E) w stateFile then acc
    else
      match os_ReadFile (E := E) w stateFile with
      | inr err =>
          (cm, fmt_Printf (E := E) w
                 ("Warning: Failed to read state file for " ++ clientID ++ ": "
                    ++ Error err ++ newline), spawned)
      | inl data =>
          match json_Unmarshal (W := W) (E := E) data with
          | inr err =>
              (cm, fmt_Printf (E := E) w
                     ("Warning: Failed to parse state for " ++ clientID ++ ": "
                        ++ Error err ++ newline), spawned)
          | inl state =>
              match NewClient w clientID (cm_dataDir cm) with
              | (w, inr err) =>
                  (cm, fmt_Printf (E := E) w
                         ("Warning: Failed to create client " ++ clientID ++ ": "
                            ++ Error err ++ newline), spawned)
              | (w, inl c) =>
                  let cm := set_clients (<[clientID := c]> (clients cm)) cm in
                  let defaultFile :=
                    filepath_Join (W := W) (E := E) [cm_dataDir cm; "default_client"] in
                  let cm :=
                    match os_ReadFile (E := E) w defaultFile with
                    | inl data => set_defaultClient data cm
                    | inr _ => cm
                    end in
                  if String.eqb (cs_Status state) StatusConnected || cs_Connected state
                  then (cm, w, (spawned ++ [clientID])%list)
                  else (cm, w, spawned)
              end
          end
      end.

(** The result lists the clients whose [Connect] was left to a goroutine. *)
Definition LoadClients (cm : ClientManager) (w : W)
    : ClientManager * W * option error * list string :=
  match os_ReadDir (E := E) w (cm_dataDir cm) with
  | inr err =>
      (cm, w, Some (fmt_Errorf_w "failed to read data directory: " err), [])
  | inl entries =>
      let '(cm, w, spawned) := fold_left load_one entries (cm, w, []) in
      (cm, w, None, spawned)
  end.

(** The goroutine [LoadClients] starts for a client: [Connect], and a warning
    when it fails. *)
Definition reconnect (cm : ClientManager) (w : W) (id : string) (now : time_Time)
    : ClientManager * W :=
  match clients cm !! id with
  | None => (cm, w)
  | Some c =>
      match Connect c now with
      | (c, Some err) =>
          (set_clients (<[id := c]> (clients cm)) cm,
           fmt_Printf (E := E) w
             ("Warning: Failed to connect client " ++ ID c ++ ": " ++ Error err ++ newline))
      | (c, None) => (set_clients (<[id := c]> (clients cm)) cm, w)
      end
  end.

End Registry.

Arguments ClientManager : clear implicits.

(** ** The vocabulary of the statements *)

(** Whether a string begins with ['+']. *)
Definition starts_plus (s : string) : bool :=
  match s with
  | String first _ => Ascii.eqb first "+"
  | EmptyString => false
  end.

(** The failures [SendMessage] can return. *)
Inductive send_failure : error -> Prop :=
| NotConnected : send_failure (errors_New "not connected")
| NotLoggedIn : send_failure (errors_New "not logged in")
| InvalidRecipient_parse cause :
    send_failure (fmt_Errorf_w "invalid recipient: " cause)
| InvalidRecipient_server :
    send_failure (errors_New "invalid recipient: not a user JID")
| InvalidRecipient_user :
    send_failure (errors_New "invalid recipient: empty user")
| SendFailed cause :
    send_failure (fmt_Errorf_w "failed to send message: " cause).

Section Vocabulary.
Context {JID E W : Type} `{!Engine JID E} `{!Platform W E}.

(** The default is empty or names a client of the map. *)
Definition default_ok (cm : ClientManager E) : Prop :=
  defaultClient cm = "" \/ is_Some (clients cm !! defaultClient cm).

(** The path of a client's state file and of the default marker. *)
Definition state_file (c : Client E) : string :=
  filepath_Join (W := W) (E := E) [dataDir c; "state.json"].
Definition default_file (cm : ClientManager E) : string :=
  filepath_Join (W := W) (E := E) [cm_dataDir cm; "default_client"].

(** The warning [SaveClients] prints for a client whose save failed. *)
Definition save_warning (c : Client E) (err : error) : string :=
  "Warning: Failed to save state for " ++ ID c ++ ": " ++ Error err ++ newline.

(** The writing calls of [SaveState], and of one turn of the loop of
    [SaveClients] started in the world [w]. *)
Definition SaveState_calls (c : Client E) : list SysCall :=
  match json_MarshalIndent (W := W) (E := E) (GetState c) with
  | inl data => [SysWriteFile (state_file c) data]
  | inr _ => []
  end.

Definition save_one_calls (w : W) (entry : string * Client E) : list SysCall :=
  (SaveState_calls (snd entry) ++
   match (SaveState (snd entry) w).2 with
   | Some err => [SysPrintf (save_warning (snd entry) err)]
   | None => []
   end)%list.

Fixpoint save_loop_calls (entries : list (string * Client E)) (w : W) : list SysCall :=
  match entries with
  | [] => []
  | entry :: rest => (save_one_calls w entry ++ save_loop_calls rest (save_one w entry))%list
  end.

End Vocabulary.

(** ** A small engine and a small platform, for the examples *)

Module Sim.

(** An engine that is a few flags: [fail_*] are the errors its calls will
    return, [paired] is [Store.ID], [qr] is what [GetQRChannel] gives. *)
Record SimEngine : Type := mkSimEngine {
  connected : bool;
  loggedIn : bool;
  paired : option (string * string);
  pushName : string;
  fail_connect : option error;
  fail_logout : option error;
  fail_send : option error;
  qr : QRChan + error
}.

Definition with_flags (c l : bool) (p : option (string * string)) (e : SimEngine) : SimEngine :=
  mkSimEngine c l p (pushName e) (fail_connect e) (fail_logout e) (fail_send e) (qr e).

(** The text before the first ['@'] and the text after it. *)
Fixpoint split_at_sign (s : string) : string * option string :=
  match s with
  | EmptyString => ("", None)
  | String a rest =>
      if Ascii.eqb a "@"%char then ("", Some rest)
      else let '(u, srv) := split_at_sign rest in (String a u, srv)
  end.

(** A string with no ['@'] is a server name, as in whatsmeow. *)
Definition parse_jid (s : string) : (string * string) + error :=
  match split_at_sign s with
  | (u, Some srv) => inl (u, srv)
  | (u, None) => inl ("", u)
  end.

#[global] Instance sim_engine : Engine (string * string) SimEngine := {
  IsConnected := connected;
  IsLoggedIn := loggedIn;
  engine_Connect e :=
    match fail_connect e with
    | Some err => (e, Some err)
    | None => (with_flags true (bool_decide (paired e ≠ None)) (paired e) e, None)
    end;
  engine_Disconnect e := with_flags false false (paired e) e;
  engine_Logout e :=
    match fail_logout e with
    | Some err => (e, Some err)
    | None => (with_flags false false None e, None)
    end;
  GetQRChannel e := (e, qr e);
  engine_SendMessage e _ _ := (e, fail_send e);
  Store_ID := paired;
  Store_PushName := pushName;
  types_ParseJID := parse_jid;
  JID_User := fst;
  JID_Server := snd
}.

(** A fresh engine: not connected, not paired, and a QR code on request. *)
Definition fresh_engine : SimEngine :=
  mkSimEngine false false None "" None None None
              (inl (Some (2 * time_Second, mkQRItem "code" "2@abc"))).

(** A world that is a table of files, the entries of the data directory, the
    paths that refuse writes, the lines printed and a clock. *)
Record SimWorld : Type := mkSimWorld {
  sim_files : gmap string string;
  sim_entries : list DirEntry;
  sim_readonly : list string;
  sim_stdout : list string;
  sim_clock : time_Time
}.

Definition refuses (w : SimWorld) (path : string) : bool :=
  existsb (String.eqb path) (sim_readonly w).

Definition sim_write (w : SimWorld) (path data : string) : SimWorld * option error :=
  if refuses w path then (w, Some (errors_New "permission denied"))
  else (mkSimWorld (<[path := data]> (sim_files w)) (sim_entries w) (sim_readonly w)
                   (sim_stdout w) (sim_clock w), None).

Definition sim_print (w : SimWorld) (text : string) : SimWorld :=
  mkSimWorld (sim_files w) (sim_entries w) (sim_readonly w)
             (sim_stdout w ++ [text])%list (sim_clock w).

Definition sim_tick (w : SimWorld) (d : time_Duration) : SimWorld :=
  mkSimWorld (sim_files w) (sim_entries w) (sim_readonly w) (sim_stdout w)
             (sim_clock w + d).

Definition sim_guarded (w : SimWorld) (path : string) : SimWorld * option error :=
  if refuses w path then (w, Some (errors_New "permission denied")) else (w, None).

Fixpoint sim_join (parts : list string) : string :=
  match parts with
  | [] => ""
  | [p] => p
  | p :: rest => p ++ "/" ++ sim_join rest
  end.

(** The stored form of a state is its status line alone. *)
Definition sim_unmarshal (data : string) : ClientState + error :=
  if String.eqb data "" then inr (errors_New "unexpected end of JSON input")
  else inl (mkClientState "" data 0 (String.eqb data StatusConnected) false "" "" "").

#[global] Instance sim_platform : Platform SimWorld SimEngine := {
  Container := unit;
  Device := unit;
  filepath_Join := sim_join;
  os_MkdirAll := sim_guarded;
  os_ReadDir w _ := inl (sim_entries w);
  os_Stat_IsNotExist w path := bool_decide (sim_files w !! path = None);
  os_ReadFile w path :=
    match sim_files w !! path with
    | Some data => inl data
    | None => inr (errors_New "no such file or directory")
    end;
  os_WriteFile := sim_write;
  os_RemoveAll := sim_guarded;
  fmt_Printf := sim_print;
  time_Sleep := sim_tick;
  time_Now := sim_clock;
  json_Unmarshal := sim_unmarshal;
  json_MarshalIndent st := inl (cs_Status st);
  sqlstore_New w _ := (w, inl tt);
  GetFirstDevice w _ := (w, inl tt);
  whatsmeow_NewClient _ := fresh_engine
}.

(** A world with nothing in it. *)
Definition empty_world : SimWorld := mkSimWorld ∅ [] [] [] 0.

(** A client as [NewClient] leaves it, around a given engine. *)
Definition client_of (id : string) (e : SimEngine) : Client SimEngine :=
  mkClient id e None StatusLoggedOut 0 "" (Some make_chan) None (Some make_chan) None
           ("data/" ++ id).

(** Engines in the three situations [GetState] tells apart. *)
Definition logged_in_engine : SimEngine :=
  mkSimEngine true true (Some ("6281234", "s.whatsapp.net")) "Work phone" None None None
              (inl None).
Definition connected_engine : SimEngine :=
  mkSimEngine true false None "" None None None (inl None).

(** A client whose last connection attempt failed, on an engine that will
    connect at the next attempt. *)
Definition failed_client : Client SimEngine :=
  mkClient "work" fresh_engine None StatusError 0 "dial tcp: connection refused"
           (Some make_chan) None (Some make_chan) None "data/work".

(** A registry of the one client "work", which is the default. *)
Definition work_registry : ClientManager SimEngine :=
  mkClientManager {["work" := client_of "work" fresh_engine]} "work" "data"
                  (Some (TimerArmed (5 * time_Minute))).

(** A registry of two clients, "home" the default. *)
Definition two_registry : ClientManager SimEngine :=
  mkClientManager (<["home" := client_of "home" fresh_engine]>
                     {["work" := client_of "work" fresh_engine]})
                  "home" "data" (Some (TimerArmed (5 * time_Minute))).

(** A world in which the default marker cannot be written, and one in which
    the state file of "home" cannot. *)
Definition marker_readonly_world : SimWorld :=
  mkSimWorld ∅ [] ["data/default_client"] [] 0.
Definition home_readonly_world : SimWorld :=
  mkSimWorld ∅ [] ["data/home/state.json"] [] 0.

(** A data directory left by a run in which "home" was the default and was
    then deleted: the directory of "work" with its state, and the marker
    still naming "home". *)
Definition stale_marker_world : SimWorld :=
  mkSimWorld (<["data/work/state.json" := "logged_out"]>
                {["data/default_client" := "home"]})
             [mkDirEntry "work" true] [] [] 0.

(** An engine that is logged in and whose sends fail. *)
Definition flaky_engine : SimEngine :=
  mkSimEngine true true (Some ("6281234", "s.whatsapp.net")) "" None None
              (Some (errors_New "websocket not connected")) (inl None).

(** A client on an engine with a call log, empty so far. *)
Definition logging_client (e : SimEngine) : Client (Traced (string * string) SimEngine) :=
  mkClient "work" (e, []) None StatusConnected 0 "" (Some make_chan) None
           (Some make_chan) None "data/work".

(** A registry as [NewClientManager] makes it. *)
Definition new_registry : ClientManager SimEngine :=
  mkClientManager ∅ "" "data" (Some (TimerArmed (5 * time_Minute))).

End Sim.

(** ** The vocabulary of the statements, continued *)

(** The log of the engine of a client. *)
Definition calls_of {JID E : Type} (c : Client (Traced JID E)) : list (EngineCall JID) :=
  snd (client c).

(** The warning [DeleteClient] prints when the directory stays. *)
Definition remove_warning (id : string) (err : error) : string :=
  "Warning: Failed to remove client directory for " ++ id ++ ": " ++ Error err ++ newline.

(** The warning [CreateClient] prints when the first save fails. *)
Definition initial_save_warning (id : string) (err : error) : string :=
  "Warning: Failed to save initial state for " ++ id ++ ": " ++ Error err ++ newline.

(** ** The configuration (package [config]) *)

(** [type Config struct] *)
Record Config : Type := mkConfig {
  ListenAddr : string;
  APIKey : string;
  WhatsappDataDir : string
}.

(** What the configuration and the HTTP layer ask of their host; [W] is the
    state of the world.  [json_Unmarshal_Config data cfg] is
    [json.Unmarshal(data, cfg)]: the configuration [cfg] with the fields the
    document gives replaced. *)
Class Host (W : Type) : Type := {
  os_Getenv : W -> string -> string;
  host_ReadFile : W -> string -> string + error;
  host_MkdirAll : W -> string -> W * option error;
  host_WriteFile : W -> string -> string -> W * option error;
  filepath_Dir : string -> string;
  json_Unmarshal_Config : string -> Config -> Config + error;
  json_MarshalIndent_Config : Config -> string + error
}.

Section ConfigModel.
Context {W : Type} `{!Host W}.

(** [loadFromFile] *)
Definition loadFromFile (w : W) (filename : string) (cfg : Config) : Config + error :=
  match host_ReadFile w filename with
  | inr err => inr err
  | inl data => json_Unmarshal_Config (W := W) data cfg
  end.

(** [if v := os.Getenv(name); v != "" { field = v }] *)
Definition from_env (w : W) (name current : string) : string :=
  if negb (String.eqb (os_Getenv w name) "") then os_Getenv w name else current.

(** [Load] *)
Definition Load (w : W) (configFile : string) : W * (Config + error) :=
  let cfg := mkConfig ":8080" "changeme" "./whatsapp-data" in
  match (if negb (String.eqb configFile "")
         then loadFromFile w configFile cfg else inl cfg) with
  | inr err => (w, inr err)
  | inl cfg =>
      let cfg := mkConfig (from_env w "LISTEN_ADDR" (ListenAddr cfg))
                          (APIKey cfg) (WhatsappDataDir cfg) in
      let cfg := mkConfig (ListenAddr cfg) (from_env w "API_KEY" (APIKey cfg))
                          (WhatsappDataDir cfg) in
      let cfg := mkConfig (ListenAddr cfg) (APIKey cfg)
                          (from_env w "WHATSAPP_DATA_DIR" (WhatsappDataDir cfg)) in
      match host_MkdirAll w (WhatsappDataDir cfg) with
      | (w, Some err) => (w, inr err)
      | (w, None) => (w, inl cfg)
      end
  end.

(** [SaveToFile] *)
Definition SaveToFile (cfg : Config) (w : W) (filename : string) : W * option error :=
  let dir := filepath_Dir (W := W) filename in
  match host_MkdirAll w dir with
  | (w, Some err) => (w, Some err)
  | (w, None) =>
      match json_MarshalIndent_Config (W := W) cfg with
      | inr err => (w, Some err)
      | inl data => host_WriteFile w filename data
      end
  end.

End ConfigModel.

(** ** The middlewares and the login pages (package [handlers]) *)

(** What the middlewares and the login handlers read of a request: the path,
    the [X-API-Key] header and the [api_key] query parameter (empty when
    absent), the [api_key] cookie ([None] when [c.Cookie] returns an error),
    and the [api_key] and [remember] fields of a posted form. *)
Record Request : Type := mkRequest {
  url_path : string;
  header_api_key : string;
  query_api_key : string;
  cookie_api_key : option string;
  form_api_key : string;
  form_remember : string
}.

(** A value of a [gin.H]. *)
Inductive JSONValue : Type :=
| JString (s : string)
| JBool (b : bool).

(** The calls a handler makes on its [gin.Context] to answer. *)
Inductive Reply : Type :=
| c_Next
| c_Abort
| c_JSON (code : Z) (body : list (string * JSONValue))
| c_HTML (code : Z) (template : string) (data : list (string * JSONValue))
| c_Redirect (code : Z) (location : string)
| c_SetCookie (name value : string) (maxAge : Z) (path domain : string)
              (secure httpOnly : bool).

Definition http_StatusOK : Z := 200.
Definition http_StatusFound : Z := 302.
Definition http_StatusUnauthorized : Z := 401.

(** [APIKeyMiddleware] *)
Definition APIKeyMiddleware (apiKey : string) (req : Request) : list Reply :=
  if String.prefix "/ui/" (url_path req) then [c_Next]
  else
    let key := header_api_key req in
    let key := if String.eqb key "" then query_api_key req else key in
    if negb (String.eqb key apiKey)
    then [c_JSON http_StatusUnauthorized [("error", JString "Invalid API key")]; c_Abort]
    else [c_Next].

Section UIModel.
Context {W : Type} `{!Host W}.

(** The key the UI compares with: [os.Getenv("API_KEY")], and "changeme"
    when that is empty (the same three lines in [UIAuthMiddleware] and in
    [login]). *)
Definition expectedAPIKey (w : W) : string :=
  if String.eqb (os_Getenv w "API_KEY") "" then "changeme" else os_Getenv w "API_KEY".

(** [UIAuthMiddleware] *)
Definition UIAuthMiddleware (w : W) (req : Request) : list Reply :=
  if String.eqb (url_path req) "/ui/login" then [c_Next]
  else
    match cookie_api_key req with
    | None => [c_Redirect http_StatusFound "/ui/login"; c_Abort]
    | Some apiKey =>
        if String.eqb apiKey ""
        then [c_Redirect http_StatusFound "/ui/login"; c_Abort]
        else if negb (String.eqb apiKey (expectedAPIKey w))
        then [c_SetCookie "api_key" "" (-1) "/" "" false true;
              c_Redirect http_StatusFound "/ui/login"; c_Abort]
        else [c_Next]
    end.

(** [UIHandler.login] *)
Definition login (w : W) (req : Request) : list Reply :=
  let apiKey := form_api_key req in
  let remember := String.eqb (form_remember req) "1" in
  if negb (String.eqb apiKey (expectedAPIKey w))
  then [c_HTML http_StatusOK "login_alt.html"
          [("Title", JString "Login"); ("Error", JString "Invalid API Key")]]
  else
    let expiration := if remember then 3600 * 24 else 3600 in
    [c_SetCookie "api_key" apiKey expiration "/" "" false true;
     c_Redirect http_StatusFound "/ui/dashboard"].

(** [UIHandler.logout] *)
Definition logout : list Reply :=
  [c_SetCookie "api_key" "" (-1) "/" "" false true;
   c_Redirect http_StatusFound "/ui/login"].

(** The handler of ["/"] in [RegisterHandlers]. *)
Definition root_redirect (req : Request) : list Reply :=
  match cookie_api_key req with
  | None => [c_Redirect http_StatusFound "/ui/login"]
  | Some _ => [c_Redirect http_StatusFound "/ui/dashboard"]
  end.

End UIModel.

(** ** A small host, for the examples *)

Module SimHost.

(** The environment variables, the files and the paths that refuse writes. *)
Record World : Type := mkWorld {
  env : list (string * string);
  files : list (string * string);
  readonly : list string
}.

Fixpoint assoc (key : string) (table : list (string * string)) : option string :=
  match table with
  | [] => None
  | (k, v) :: rest => if String.eqb k key then Some v else assoc key rest
  end.

Definition guarded (w : World) (path : string) : World * option error :=
  if existsb (String.eqb path) (readonly w)
  then (w, Some (errors_New "permission denied")) else (w, None).

(** A configuration file holds the API key alone. *)
#[global] Instance sim_host : Host World := {
  os_Getenv w name := match assoc name (env w) with Some v => v | None => "" end;
  host_ReadFile w path :=
    match assoc path (files w) with
    | Some data => inl data
    | None => inr (errors_New "no such file or directory")
    end;
  host_MkdirAll := guarded;
  host_WriteFile w path data :=
    match guarded w path with
    | (w, Some err) => (w, Some err)
    | (w, None) => (mkWorld (env w) ((path, data) :: files w) (readonly w), None)
    end;
  filepath_Dir _ := ".";
  json_Unmarshal_Config data cfg :=
    if String.eqb data "" then inr (errors_New "unexpected end of JSON input")
    else inl (mkConfig (ListenAddr cfg) data (WhatsappDataDir cfg));
  json_MarshalIndent_Config cfg := inl (APIKey cfg)
}.

(** A host with a configuration file and the API key in the environment. *)
Definition keyed_host : World :=
  mkWorld [("API_KEY", "s3cret")] [("gateway.json", "from-file")] [].


(** A host with nothing set. *)
Definition bare_host : World := mkWorld [] [] [].


(** Requests: to the API with a header, to a page with a cookie, and the
    posted login form. *)
Definition api_request (path header query : string) : Request :=
  mkRequest path header query None "" "".
Definition page_request (path : string) (cookie : option string) : Request :=
  mkRequest path "" "" cookie "" "".
Definition login_form (key remember : string) : Request :=
  mkRequest "/ui/login" "" "" None key remember.

End SimHost.

(** ** More of the small engine and platform *)

Module SimMore.

(** An engine whose [Connect] fails. *)
Definition refusing_engine : Sim.SimEngine :=
  Sim.mkSimEngine false false None "" (Some (errors_New "dial tcp: i/o timeout"))
                  None None (inl None).

(** An engine that is logged in and whose [Logout] fails. *)
Definition clinging_engine : Sim.SimEngine :=
  Sim.mkSimEngine true true (Some ("6281234", "s.whatsapp.net")) "" None
                  (Some (errors_New "logout: timed out")) None (inl None).

(** A data directory that holds a default marker and a stray file, and no
    client. *)
Definition marker_only_world : Sim.SimWorld :=
  Sim.mkSimWorld {["data/default_client" := "home"]} [mkDirEntry "notes.txt" false]
                 [] [] 0.

(** A world in which the state file of "work" cannot be written. *)
Definition work_state_readonly_world : Sim.SimWorld :=
  Sim.mkSimWorld ∅ [] ["data/work/state.json"] [] 0.

(** A world in which directories cannot be removed. *)
Definition sticky_world : Sim.SimWorld :=
  Sim.mkSimWorld ∅ [] ["data/work"] [] 0.

End SimMore.

(** * Properties of the client *)

Section ClientFacts.
Context {JID E : Type} `{!Engine JID E}.

(** ** The engine after the activity stamp *)

Lemma client_set_lastActivity (t : time_Time) (c : Client E) :
  client (set_lastActivity t c) = client c.
Proof. reflexivity. Qed.

(** ** GetState *)

(** C1. The status of the snapshot [GetState] returns is computed from the
    engine's flags: connected status when the engine is logged in,
    disconnected status when it is connected and not logged in, and the
    recorded [status] field when it is neither. *)
Theorem GetState_status_recomputed (c : Client E) :
  (IsLoggedIn (client c) = true -> cs_Status (GetState c) = StatusConnected) /\
  (IsLoggedIn (client c) = false -> IsConnected (client c) = true ->
     cs_Status (GetState c) = StatusDisconnected) /\
  (IsLoggedIn (client c) = false -> IsConnected (client c) = false ->
     cs_Status (GetState c) = status c).
Proof.
  unfold GetState; cbn [cs_Status].
  repeat split.
  - intros ->. reflexivity.
  - intros -> ->. reflexivity.
  - intros -> ->. reflexivity.
Qed.

(** The snapshot carries the flags it was computed from. *)
Lemma GetState_flags (c : Client E) :
  cs_Connected (GetState c) = IsConnected (client c) /\
  cs_LoggedIn (GetState c) = IsLoggedIn (client c).
Proof. split; reflexivity. Qed.

(** ** PairPhone and GetPairingCode *)

(** C10. [PairPhone] and [GetPairingCode] fail for every client and every
    phone number, and return the client as it was. *)
Theorem pairing_always_fails (c : Client E) (phoneNumber : string) :
  (exists err, PairPhone c phoneNumber = (c, Some err)) /\
  (exists err, GetPairingCode c = (c, ("", Some err))).
Proof.
  split; eexists; reflexivity.
Qed.

(** ** GenerateQR *)

Lemma select_qr_early (t : time_Duration) (evt : QRChannelItem) (tie : bool) :
  t < qr_wait -> select_qr (Some (t, evt)) tie = FromQRChan evt.
Proof.
  intros Ht. unfold select_qr.
  destruct (Z.ltb_spec t qr_wait) as [_ | Hge]; [reflexivity | lia].
Qed.

Lemma select_qr_late (t : time_Duration) (evt : QRChannelItem) (tie : bool) :
  qr_wait < t -> select_qr (Some (t, evt)) tie = FromTimeAfter.
Proof.
  intros Ht. unfold select_qr.
  destruct (Z.ltb_spec t qr_wait) as [Hlt | _]; [lia |].
  destruct (Z.eqb_spec t qr_wait) as [Heq | _]; [lia | reflexivity].
Qed.

Lemma qr_event_result_code (evt : QRChannelItem) :
  Event evt = "code" -> qr_event_result evt = (Code evt, None).
Proof.
  intros Hev. unfold qr_event_result. rewrite decide_True by exact Hev. reflexivity.
Qed.

Lemma qr_event_result_outdated (evt : QRChannelItem) :
  Event evt = "err-client-outdated" ->
  qr_event_result evt = ("", Some (errors_New outdated_message)).
Proof.
  intros Hev. unfold qr_event_result.
  rewrite decide_False by (rewrite Hev; discriminate).
  rewrite decide_True by exact Hev. reflexivity.
Qed.

Lemma qr_event_result_other (evt : QRChannelItem) :
  Event evt <> "code" -> Event evt <> "err-client-outdated" ->
  qr_event_result evt = ("", Some (errors_New ("unexpected QR event: " ++ Event evt))).
Proof.
  intros H1 H2. unfold qr_event_result.
  rewrite decide_False by exact H1. rewrite decide_False by exact H2. reflexivity.
Qed.

(** Once the engine has connected, the result is the result of the wait. *)
Lemma GenerateQR_after_connect (c : Client E) (now : time_Time) (tie : bool)
    (e1 e2 : E) (ch : QRChan) :
  IsLoggedIn (client c) = false ->
  GetQRChannel (if IsConnected (client c) then engine_Disconnect (client c) else client c)
    = (e1, inl ch) ->
  engine_Connect e1 = (e2, None) ->
  snd (GenerateQR c now tie) =
    match select_qr ch tie with
    | FromQRChan evt => qr_event_result evt
    | FromTimeAfter => ("", Some (errors_New "timeout waiting for QR code"))
    end.
Proof.
  intros Hlog Hqr Hconn. unfold GenerateQR.
  rewrite client_set_lastActivity, Hlog, Hqr, Hconn.
  destruct (select_qr ch tie); reflexivity.
Qed.

(** C3. When the engine is not logged in, hands out a QR channel and
    connects, the result of [GenerateQR] is decided by the wait: an item that
    is ready before the 30 seconds are over gives its code when its event is
    "code", the outdated-client error when it is "err-client-outdated", and
    the unexpected-event error otherwise; no item, or an item that is ready
    only after the 30 seconds, gives the timeout error.  The three errors have
    different texts, and the text of the outdated-client error is not the
    text of any connection failure. *)
Theorem GenerateQR_wait_outcome (c : Client E) (now : time_Time) (tie : bool)
    (e1 e2 : E) (ch : QRChan) :
  IsLoggedIn (client c) = false ->
  GetQRChannel (if IsConnected (client c) then engine_Disconnect (client c) else client c)
    = (e1, inl ch) ->
  engine_Connect e1 = (e2, None) ->
  (forall t evt, ch = Some (t, evt) -> t < qr_wait ->
     (Event evt = "code" -> snd (GenerateQR c now tie) = (Code evt, None)) /\
     (Event evt = "err-client-outdated" ->
        snd (GenerateQR c now tie) = ("", Some (errors_New outdated_message))) /\
     (Event evt <> "code" -> Event evt <> "err-client-outdated" ->
        snd (GenerateQR c now tie)
          = ("", Some (errors_New ("unexpected QR event: " ++ Event evt))))) /\
  ((ch = None \/ exists t evt, ch = Some (t, evt) /\ qr_wait < t) ->
     snd (GenerateQR c now tie) = ("", Some (errors_New "timeout waiting for QR code"))) /\
  (forall kind cause,
     outdated_message <> "unexpected QR event: " ++ kind /\
     outdated_message <> "timeout waiting for QR code" /\
     "timeout waiting for QR code" <> "unexpected QR event: " ++ kind /\
     Error (errors_New outdated_message) <> Error (fmt_Errorf_w "failed to connect: " cause)).
Proof.
  intros Hlog Hqr Hconn.
  pose proof (GenerateQR_after_connect c now tie e1 e2 ch Hlog Hqr Hconn) as Hres.
  split; [| split].
  - intros t evt -> Ht. rewrite (select_qr_early t evt tie Ht) in Hres.
    rewrite Hres. repeat split.
    + apply qr_event_result_code.
    + apply qr_event_result_outdated.
    + apply qr_event_result_other.
  - intros [-> | (t & evt & -> & Ht)].
    + exact Hres.
    + rewrite (select_qr_late t evt tie Ht) in Hres. exact Hres.
  - intros kind cause. repeat split; cbn; discriminate.
Qed.

(** C8. On a client whose engine is logged in (any engine, with the log of
    the calls made on it), [GenerateQR] fails with the already-logged-in
    error, makes no call on the engine (the engine and its log are as
    before), and leaves [status], [connError] and the QR channel and timer
    as they were. *)
Theorem GenerateQR_logged_in_untouched (c : Client (Traced JID E)) (now : time_Time)
    (tie : bool) :
  IsLoggedIn (client c) = true ->
  snd (GenerateQR c now tie) = ("", Some (errors_New "already logged in")) /\
  snd (client (fst (GenerateQR c now tie))) = snd (client c) /\
  fst (client (fst (GenerateQR c now tie))) = fst (client c) /\
  status (fst (GenerateQR c now tie)) = status c /\
  connError (fst (GenerateQR c now tie)) = connError c /\
  qrChan (fst (GenerateQR c now tie)) = qrChan c /\
  qrTimeout (fst (GenerateQR c now tie)) = qrTimeout c.
Proof.
  intros Hlog. unfold GenerateQR.
  cbn [client set_lastActivity]. rewrite Hlog. cbn. repeat split.
Qed.

(** ** SendMessage *)

(** Every result of [SendMessage] comes with the client's [status] and
    [connError] as they were. *)
Lemma SendMessage_frame (c : Client E) (now : time_Time) (recipient message : string) :
  status (fst (SendMessage c now recipient message)) = status c /\
  connError (fst (SendMessage c now recipient message)) = connError c.
Proof.
  unfold SendMessage.
  repeat match goal with
         | |- context [if ?b then _ else _] => destruct b
         | |- context [match ?x with _ => _ end] => destruct x
         end; split; reflexivity.
Qed.

(** C9. When [SendMessage] returns a failure, the failure is not-connected,
    not-logged-in, an invalid recipient or a failed send, and the client's
    [status] and [connError] are the same after the call as before. *)
Theorem SendMessage_failure_keeps_status (c c' : Client E) (now : time_Time)
    (recipient message : string) (err : error) :
  SendMessage c now recipient message = (c', Some err) ->
  send_failure err /\ status c' = status c /\ connError c' = connError c.
Proof.
  intros Hsend.
  pose proof (SendMessage_frame c now recipient message) as [Hst Hce].
  rewrite Hsend in Hst, Hce. cbn in Hst, Hce.
  split; [| split; assumption].
  revert Hsend. unfold SendMessage.
  repeat match goal with
         | |- context [if ?b then _ else _] => destruct b
         | |- context [match ?x with _ => _ end] => destruct x
         end; intros [= <- <-]; constructor.
Qed.

(** ** Connect and the connected event *)

(** A [Connect] that succeeds does not write [connError]. *)
Lemma Connect_success_connError (c : Client E) (now : time_Time) :
  snd (Connect c now) = None -> connError (fst (Connect c now)) = connError c.
Proof.
  unfold Connect.
  repeat match goal with
         | |- context [if ?b then _ else _] => destruct b
         | |- context [match ?x with _ => _ end] => destruct x
         end; cbn; intros Hres; try discriminate; reflexivity.
Qed.

(** C7, as the code has it. After a "connected" event from the engine the
    client's [connError] is empty and its status is the connected one. *)
Theorem connected_event_clears_connError (c : Client E) (now : time_Time) :
  connError (fst (handleEvent c now events_Connected)) = "" /\
  status (fst (handleEvent c now events_Connected)) = StatusConnected.
Proof.
  unfold handleEvent. cbn. destruct (eventHandler c); split; reflexivity.
Qed.

End ClientFacts.

(** ** The recipient formatting *)

Lemma contains_at_cons (a : ascii) (s : string) :
  strings_Contains s "@" = true -> strings_Contains (String a s) "@" = true.
Proof.
  intros Hs. cbn [strings_Contains]. rewrite Hs.
  destruct (String.prefix "@" (String a s)); reflexivity.
Qed.

Lemma contains_at_tail (a : ascii) (s : string) :
  a <> "@"%char ->
  strings_Contains (String a s) "@" = strings_Contains s "@".
Proof.
  intros Hne. cbn [strings_Contains String.prefix].
  destruct (ascii_dec "@" a) as [Heq | _]; [congruence | reflexivity].
Qed.

Lemma contains_at_server (s : string) :
  strings_Contains (s ++ "@s.whatsapp.net") "@" = true.
Proof.
  induction s as [| a s IH].
  - reflexivity.
  - cbn [String.append]. apply contains_at_cons, IH.
Qed.

Lemma add_user_server_contains (s : string) :
  strings_Contains (add_user_server s) "@" = true.
Proof.
  unfold add_user_server.
  destruct (strings_Contains s "@") eqn:Hs; cbn [negb].
  - exact Hs.
  - apply contains_at_server.
Qed.

Lemma add_user_server_fixed (s : string) :
  strings_Contains s "@" = true -> add_user_server s = s.
Proof. intros Hs. unfold add_user_server. rewrite Hs. reflexivity. Qed.

Lemma add_user_server_starts (s : string) :
  starts_plus (add_user_server s) = starts_plus s.
Proof.
  unfold add_user_server.
  destruct (strings_Contains s "@"); cbn [negb]; [reflexivity |].
  destruct s; reflexivity.
Qed.

Lemma drop_plus_fixed (s : string) : starts_plus s = false -> drop_plus s = s.
Proof.
  destruct s as [| a s]; [reflexivity |].
  cbn [starts_plus drop_plus]. intros ->. reflexivity.
Qed.

Lemma starts_plus_drop_plus (s : string) :
  starts_plus (drop_plus s) = String.prefix "++" s.
Proof.
  destruct s as [| a s]; [reflexivity |].
  cbn [drop_plus String.prefix].
  destruct (Ascii.eqb_spec a "+") as [-> | Hne].
  - destruct (ascii_dec "+" "+") as [_ | Hbad]; [| congruence].
    destruct s as [| b s]; [reflexivity |].
    cbn [starts_plus String.prefix].
    destruct (Ascii.eqb_spec b "+") as [-> | Hne].
    + destruct (ascii_dec "+" "+") as [_ | Hbad]; [| congruence].
      destruct s; reflexivity.
    + destruct (ascii_dec "+" b) as [Heq | _]; [congruence | reflexivity].
  - cbn [starts_plus]. destruct (Ascii.eqb_spec a "+") as [Heq | _]; [congruence |].
    destruct (ascii_dec "+" a) as [Heq | _]; [congruence | reflexivity].
Qed.

Lemma string_cons_neq (a : ascii) (s : string) : s <> String a s.
Proof.
  intros Heq. apply (f_equal String.length) in Heq. cbn in Heq. lia.
Qed.

(** Formatting twice is formatting once exactly on the strings that do not
    begin with two ['+']. *)
Lemma format_recipient_twice (s : string) :
  format_recipient (format_recipient s) = format_recipient s <->
  String.prefix "++" s = false.
Proof.
  unfold format_recipient.
  pose proof (add_user_server_contains (drop_plus s)) as Hat.
  pose proof (add_user_server_starts (drop_plus s)) as Hstart.
  rewrite starts_plus_drop_plus in Hstart.
  generalize dependent (add_user_server (drop_plus s)). intros x Hat Hstart.
  split.
  - intros Hidem. destruct (String.prefix "++" s); [| reflexivity].
    exfalso. destruct x as [| a y]; [discriminate Hstart |].
    cbn [starts_plus] in Hstart.
    destruct (Ascii.eqb_spec a "+") as [-> | _]; [| discriminate Hstart].
    change (drop_plus (String "+" y)) with y in Hidem.
    rewrite contains_at_tail in Hat by discriminate.
    rewrite (add_user_server_fixed y Hat) in Hidem.
    exact (string_cons_neq _ _ Hidem).
  - intros Hpre. rewrite Hpre in Hstart.
    rewrite (drop_plus_fixed x Hstart). apply add_user_server_fixed, Hat.
Qed.

(** C6, as the code has it. Formatting the formatted recipient gives the
    same string exactly when the recipient does not begin with two ['+'];
    and "+6281234@s.whatsapp.net", "6281234@s.whatsapp.net" and "6281234"
    are all formatted to "6281234@s.whatsapp.net". *)
Theorem format_recipient_idempotent_unless_double_plus :
  (forall s : string,
     String.prefix "++" s = false ->
     format_recipient (format_recipient s) = format_recipient s) /\
  (forall s : string,
     String.prefix "++" s = true ->
     format_recipient (format_recipient s) <> format_recipient s) /\
  format_recipient "+6281234@s.whatsapp.net" = "6281234@s.whatsapp.net" /\
  format_recipient "6281234@s.whatsapp.net" = "6281234@s.whatsapp.net" /\
  format_recipient "6281234" = "6281234@s.whatsapp.net".
Proof.
  split; [| split; [| repeat split]].
  - intros s Hs. apply format_recipient_twice, Hs.
  - intros s Hs Hidem. apply format_recipient_twice in Hidem. congruence.
Qed.

(** * Properties of the registry *)

(** ** The order of a range *)

Lemma pick_order_Permutation {A : Type} (n : nat) (seed : list nat) (l : list A) :
  length l = n -> pick_order n seed l ≡ₚ l.
Proof.
  revert seed l. induction n as [| n IH]; intros seed l Hlen.
  - destruct l; [reflexivity | discriminate].
  - cbn [pick_order].
    assert (Hlt : (hd 0 seed mod length l < length l)%nat)
      by (apply Nat.mod_upper_bound; lia).
    destruct (lookup_lt_is_Some_2 l _ Hlt) as [x Hx]. rewrite Hx.
    etransitivity; [| symmetry; apply (delete_Permutation l _ x Hx)].
    constructor. apply IH.
    pose proof (length_delete l _ (ex_intro _ x Hx)). lia.
Qed.

Lemma range_order_Permutation {V : Type} (seed : list nat) (m : gmap string V) :
  range_order seed m ≡ₚ map_to_list m.
Proof. apply pick_order_Permutation. reflexivity. Qed.

Lemma elem_of_range_order {V : Type} (seed : list nat) (m : gmap string V)
    (k : string) (v : V) :
  (k, v) ∈ range_order seed m <-> m !! k = Some v.
Proof. rewrite range_order_Permutation. apply elem_of_map_to_list. Qed.

Lemma range_order_empty {V : Type} (seed : list nat) :
  range_order seed (∅ : gmap string V) = [].
Proof. unfold range_order. rewrite map_to_list_empty. reflexivity. Qed.

Section RegistryFacts.
Context {JID E W : Type} `{!Engine JID E} `{!Platform W E}.

(** The key a range starts with is a key of the map. *)
Lemma first_in_range_lookup (seed : list nat) (m : gmap string (Client E))
    (fallback : string) :
  m <> ∅ -> is_Some (m !! first_in_range seed m fallback).
Proof.
  intros Hne. unfold first_in_range.
  destruct (range_order seed m) as [| [k v] rest] eqn:Horder.
  - exfalso. apply Hne, map_to_list_empty_iff, Permutation_nil_r.
    rewrite <- Horder. symmetry. apply range_order_Permutation.
  - exists v. apply (elem_of_range_order seed). rewrite Horder. left.
Qed.

(** ** The default client *)

(** A new registry has an empty default. *)
Lemma NewClientManager_default_ok (w w' : W) (dir : string) (cm : ClientManager E) :
  NewClientManager w dir = (w', inl cm) -> default_ok cm.
Proof.
  unfold NewClientManager.
  destruct (os_MkdirAll w dir) as [w1 [err |]]; intros [= _ <-]; left; reflexivity.
Qed.

Lemma CreateClient_default_ok (cm : ClientManager E) (w : W) (id : string) :
  default_ok cm -> default_ok (CreateClient cm w id).1.1.
Proof.
  intros Hok. unfold CreateClient.
  destruct (decide (id = "")); [exact Hok |].
  destruct (clients cm !! id) eqn:Hid; [exact Hok |].
  destruct (NewClient w id (cm_dataDir cm)) as [w1 [c | err]]; [| exact Hok].
  set (cm1 := set_clients (<[id:=c]> (clients cm)) cm).
  assert (Hnew : is_Some (clients cm1 !! id))
    by (cbn; rewrite lookup_insert_eq; eauto).
  assert (Hold : default_ok cm1).
  { destruct Hok as [Hempty | Hsome]; [left; exact Hempty | right].
    cbn. destruct (decide (id = defaultClient cm)) as [<- | Hne].
    - exact Hnew.
    - rewrite lookup_insert_ne by exact Hne. exact Hsome. }
  destruct ((size (clients cm1) =? 1)%nat && String.eqb (defaultClient cm1) "");
    destruct (SaveState c w1) as [w2 [err |]]; cbn [fst];
    solve [exact Hold | right; exact Hnew].
Qed.

(** What [DeleteClient] leaves when the client is in the map: the map without
    it, and a default that is cleared or moved when it was the deleted one. *)
Lemma DeleteClient_found (cm : ClientManager E) (w : W) (id : string) (seed : list nat)
    (c : Client E) :
  clients cm !! id = Some c ->
  (DeleteClient cm w id seed).2 = None /\
  clients (DeleteClient cm w id seed).1.1 = delete id (clients cm) /\
  defaultClient (DeleteClient cm w id seed).1.1 =
    (if decide (defaultClient cm = id)
     then (if (0 <? size (delete id (clients cm)))%nat
           then first_in_range seed (delete id (clients cm)) ""
           else "")
     else defaultClient cm).
Proof.
  intros Hc. unfold DeleteClient. rewrite Hc. unfold Close.
  destruct (IsConnected (client (set_client (shutdown_engine (client c)) c)));
    cbn [set_clients set_defaultClient clients defaultClient cm_dataDir];
    destruct (os_RemoveAll _ _) as [w1 [err |]];
    destruct (decide (defaultClient cm = id));
    cbn [set_clients set_defaultClient clients defaultClient cm_dataDir];
    try destruct (0 <? size (delete id (clients cm)))%nat;
    repeat split; reflexivity.
Qed.

Lemma DeleteClient_missing (cm : ClientManager E) (w : W) (id : string) (seed : list nat) :
  clients cm !! id = None ->
  DeleteClient cm w id seed = (cm, w, Some (errors_New ("client " ++ id ++ " not found"))).
Proof. intros Hc. unfold DeleteClient. rewrite Hc. reflexivity. Qed.

Lemma DeleteClient_default_ok (cm : ClientManager E) (w : W) (id : string) (seed : list nat) :
  default_ok cm -> default_ok (DeleteClient cm w id seed).1.1.
Proof.
  intros Hok. destruct (clients cm !! id) as [c |] eqn:Hc.
  - destruct (DeleteClient_found cm w id seed c Hc) as (_ & Hmap & Hdef).
    unfold default_ok. rewrite Hmap, Hdef.
    destruct (decide (defaultClient cm = id)) as [Heq | Hne].
    + destruct (Nat.ltb_spec 0 (size (delete id (clients cm)))) as [Hpos | _];
        [right | left; reflexivity].
      apply first_in_range_lookup, map_size_non_empty_iff. lia.
    + destruct Hok as [Hempty | Hsome]; [left; exact Hempty | right].
      rewrite lookup_delete_ne by congruence. exact Hsome.
  - rewrite (DeleteClient_missing cm w id seed Hc). exact Hok.
Qed.

Lemma SetDefaultClient_default_ok (cm : ClientManager E) (w : W) (id : string) :
  default_ok cm -> default_ok (SetDefaultClient cm w id).1.1.
Proof.
  intros Hok. unfold SetDefaultClient.
  destruct (clients cm !! id) as [c |] eqn:Hc; [| exact Hok].
  cbn [set_defaultClient cm_dataDir].
  destruct (os_WriteFile w _ id) as [w1 [err |]]; right; cbn; rewrite Hc; eauto.
Qed.

(** [Close] empties the map and keeps the default. *)
Lemma ClientManager_Close_fields (cm : ClientManager E) (w : W) (seed : list nat) :
  clients (ClientManager_Close cm w seed).1 = ∅ /\
  defaultClient (ClientManager_Close cm w seed).1 = defaultClient cm.
Proof.
  unfold ClientManager_Close. destruct (saveTimer cm); split; reflexivity.
Qed.

(** C2, as the code has it. When the default is empty or a key of the map,
    it is so again after [CreateClient], [DeleteClient] and
    [SetDefaultClient]; and deleting the client the default names removes it
    from the map and leaves the default empty when no client remains, a key
    of the remaining map otherwise. *)
Theorem default_client_preserved (cm : ClientManager E) (w : W) (id : string)
    (seed : list nat) :
  default_ok cm ->
  default_ok (CreateClient cm w id).1.1 /\
  default_ok (DeleteClient cm w id seed).1.1 /\
  default_ok (SetDefaultClient cm w id).1.1 /\
  (defaultClient cm = id -> is_Some (clients cm !! id) ->
     clients (DeleteClient cm w id seed).1.1 = delete id (clients cm) /\
     (delete id (clients cm) = ∅ ->
        defaultClient (DeleteClient cm w id seed).1.1 = "") /\
     (delete id (clients cm) <> ∅ ->
        is_Some (delete id (clients cm) !! defaultClient (DeleteClient cm w id seed).1.1))).
Proof.
  intros Hok. split; [| split; [| split]].
  - apply CreateClient_default_ok, Hok.
  - apply DeleteClient_default_ok, Hok.
  - apply SetDefaultClient_default_ok, Hok.
  - intros Hdef [c Hc].
    destruct (DeleteClient_found cm w id seed c Hc) as (_ & Hmap & Hnew).
    rewrite decide_True in Hnew by exact Hdef.
    split; [exact Hmap | split].
    + intros Hempty. rewrite Hnew, Hempty, map_size_empty. reflexivity.
    + intros Hne. rewrite Hnew.
      destruct (Nat.ltb_spec 0 (size (delete id (clients cm)))) as [_ | Hzero].
      * apply first_in_range_lookup, Hne.
      * exfalso. apply Hne, map_size_empty_inv. lia.
Qed.

(** ** The create, create again, delete, create scenario *)

Lemma CreateClient_fresh (cm : ClientManager E) (w w1 : W) (id : string) (c : Client E) :
  id <> "" -> clients cm !! id = None ->
  NewClient w id (cm_dataDir cm) = (w1, inl c) ->
  (CreateClient cm w id).2 = inl c /\
  (clients (CreateClient cm w id).1.1 = <[id := c]> (clients cm)) /\
  defaultClient (CreateClient cm w id).1.1 =
    (if (size (<[id := c]> (clients cm)) =? 1)%nat && String.eqb (defaultClient cm) ""
     then id else defaultClient cm).
Proof.
  intros Hid Hnone Hnew. unfold CreateClient.
  rewrite decide_False by exact Hid. rewrite Hnone, Hnew.
  cbn [set_clients clients defaultClient].
  destruct ((size (<[id:=c]> (clients cm)) =? 1)%nat && String.eqb (defaultClient cm) "");
    destruct (SaveState c w1) as [w2 [err |]]; repeat split; reflexivity.
Qed.

Lemma CreateClient_present (cm : ClientManager E) (w : W) (id : string) :
  id <> "" -> is_Some (clients cm !! id) ->
  CreateClient cm w id =
    (cm, w, inr (errors_New ("client with ID " ++ id ++ " already exists"))).
Proof.
  intros Hid [c Hc]. unfold CreateClient.
  rewrite decide_False by exact Hid. rewrite Hc. reflexivity.
Qed.

(** [CreateClient] and [DeleteClient] keep the data directory. *)
Lemma CreateClient_dataDir (cm : ClientManager E) (w : W) (id : string) :
  cm_dataDir (CreateClient cm w id).1.1 = cm_dataDir cm.
Proof.
  unfold CreateClient.
  destruct (decide (id = "")); [reflexivity |].
  destruct (clients cm !! id); [reflexivity |].
  destruct (NewClient w id (cm_dataDir cm)) as [w1 [c | err]]; [| reflexivity].
  cbn [set_clients clients defaultClient].
  destruct ((size (<[id:=c]> (clients cm)) =? 1)%nat && String.eqb (defaultClient cm) "");
    destruct (SaveState c w1) as [w2 [err |]]; reflexivity.
Qed.

Lemma DeleteClient_dataDir (cm : ClientManager E) (w : W) (id : string) (seed : list nat) :
  cm_dataDir (DeleteClient cm w id seed).1.1 = cm_dataDir cm.
Proof.
  unfold DeleteClient. destruct (clients cm !! id) as [c |]; [| reflexivity].
  unfold Close.
  destruct (IsConnected (client (set_client (shutdown_engine (client c)) c)));
    cbn [set_clients set_defaultClient clients defaultClient cm_dataDir];
    destruct (os_RemoveAll _ _) as [w1 [err |]];
    destruct (decide (defaultClient cm = id));
    cbn [set_clients set_defaultClient clients defaultClient cm_dataDir];
    try destruct (0 <? size (delete id (clients cm)))%nat;
    reflexivity.
Qed.

(** C4. From an empty registry, and with a platform on which the session
    "work" can be built at the two moments it is built: creating "work"
    succeeds and makes it the default; creating "work" again fails with the
    already-exists error and the map still has one entry; deleting "work"
    succeeds and leaves the map empty and the default empty; creating "work"
    once more succeeds and makes it the default again. *)
Theorem work_scenario (w0 : W) (dir : string) (timer : option Timer) (seed : list nat) :
  let cm0 := mkClientManager ∅ "" dir timer in
  let s1 := CreateClient cm0 w0 "work" in
  let s2 := CreateClient s1.1.1 s1.1.2 "work" in
  let s3 := DeleteClient s2.1.1 s2.1.2 "work" seed in
  let s4 := CreateClient s3.1.1 s3.1.2 "work" in
  (exists c, (NewClient w0 "work" dir).2 = inl c) ->
  (exists c, (NewClient s3.1.2 "work" dir).2 = inl c) ->
  ((exists c, s1.2 = inl c) /\ defaultClient s1.1.1 = "work") /\
  (s2.2 = inr (errors_New "client with ID work already exists") /\
   size (clients s2.1.1) = 1%nat) /\
  (s3.2 = None /\ clients s3.1.1 = ∅ /\ defaultClient s3.1.1 = "") /\
  ((exists c, s4.2 = inl c) /\ defaultClient s4.1.1 = "work").
Proof.
  intros cm0 s1 s2 s3 s4 [c1 Hnew1] Hnew4.
  assert (Hwork : "work" <> "") by discriminate.
  (* the first creation *)
  destruct (NewClient w0 "work" dir) as [w1 r1] eqn:Hn1. cbn in Hnew1. subst r1.
  destruct (CreateClient_fresh cm0 w0 w1 "work" c1 Hwork (lookup_empty _) Hn1)
    as (Hr1 & Hm1 & Hd1).
  fold s1 in Hr1, Hm1, Hd1. cbn in Hm1, Hd1.
  rewrite insert_empty in Hm1. rewrite insert_empty, map_size_singleton in Hd1.
  cbn in Hd1.
  (* the second creation changes nothing *)
  assert (Hs2 : s2 = (s1.1.1, s1.1.2,
                      inr (errors_New "client with ID work already exists"))).
  { apply (CreateClient_present s1.1.1 s1.1.2 "work" Hwork).
    rewrite Hm1, lookup_singleton_eq. eauto. }
  (* the deletion *)
  assert (Hc2 : clients s2.1.1 !! "work" = Some c1)
    by (rewrite Hs2; cbn; rewrite Hm1; apply lookup_singleton_eq).
  destruct (DeleteClient_found s2.1.1 s2.1.2 "work" seed c1 Hc2) as (Hr3 & Hm3 & Hd3).
  fold s3 in Hr3, Hm3, Hd3.
  assert (Hempty : clients s3.1.1 = ∅).
  { rewrite Hm3, Hs2. cbn. rewrite Hm1. apply delete_singleton_eq. }
  assert (Hd3' : defaultClient s3.1.1 = "").
  { rewrite Hd3. rewrite <- Hm3, Hempty, map_size_empty.
    destruct (decide (defaultClient s2.1.1 = "work")) as [_ | Hne]; [reflexivity |].
    exfalso. apply Hne. rewrite Hs2. exact Hd1. }
  (* the last creation *)
  assert (Hdir3 : cm_dataDir s3.1.1 = dir).
  { subst s3. rewrite DeleteClient_dataDir. subst s2. rewrite CreateClient_dataDir.
    subst s1. rewrite CreateClient_dataDir. reflexivity. }
  destruct Hnew4 as [c4 Hnew4].
  destruct (NewClient s3.1.2 "work" dir) as [w4 r4] eqn:Hn4. cbn in Hnew4. subst r4.
  rewrite <- Hdir3 in Hn4.
  assert (Hnone : clients s3.1.1 !! "work" = None) by (rewrite Hempty; apply lookup_empty).
  destruct (CreateClient_fresh s3.1.1 s3.1.2 w4 "work" c4 Hwork Hnone Hn4)
    as (Hr4 & _ & Hd4).
  fold s4 in Hr4, Hd4.
  rewrite Hempty, insert_empty, map_size_singleton, Hd3' in Hd4. cbn in Hd4.
  repeat split.
  - exists c1. exact Hr1.
  - exact Hd1.
  - rewrite Hs2. reflexivity.
  - rewrite Hs2. cbn. rewrite Hm1. apply map_size_singleton.
  - exact Hr3.
  - exact Hempty.
  - exact Hd3'.
  - exists c4. exact Hr4.
  - exact Hd4.
Qed.

End RegistryFacts.

(** ** SaveClients *)

Section SaveFacts.
Context {JID E W : Type} `{!Engine JID E} `{!Platform W E}.

(** On the platform with a log, an operation does what it does on the
    platform below and adds its calls to the log. *)
Lemma SaveState_logged (c : Client E) (w : W) (log : list SysCall) :
  SaveState (W := Logged W) c (w, log) =
    (((SaveState c w).1, (log ++ SaveState_calls c)%list), (SaveState c w).2).
Proof.
  unfold SaveState, SaveState_calls, state_file. cbn.
  destruct (json_MarshalIndent (GetState c)) as [data | err]; cbn.
  - unfold logged_step.
    destruct (os_WriteFile w _ data) as [w1 [err |]]; reflexivity.
  - rewrite app_nil_r. reflexivity.
Qed.

Lemma save_one_logged (w : W) (log : list SysCall) (entry : string * Client E) :
  save_one (W := Logged W) (w, log) entry =
    (save_one w entry, (log ++ save_one_calls w entry)%list).
Proof.
  unfold save_one, save_one_calls. rewrite SaveState_logged.
  destruct (SaveState (snd entry) w) as [w1 [err |]]; cbn.
  - rewrite <- app_assoc. reflexivity.
  - rewrite app_nil_r. reflexivity.
Qed.

Lemma save_loop_logged (entries : list (string * Client E)) (w : W) (log : list SysCall) :
  fold_left (save_one (W := Logged W)) entries (w, log) =
    (fold_left save_one entries w, (log ++ save_loop_calls entries w)%list).
Proof.
  revert w log. induction entries as [| entry rest IH]; intros w log; cbn.
  - rewrite app_nil_r. reflexivity.
  - rewrite save_one_logged, IH, <- app_assoc. reflexivity.
Qed.

Lemma save_loop_calls_app (before rest : list (string * Client E)) (w : W) :
  save_loop_calls (before ++ rest) w =
    (save_loop_calls before w ++ save_loop_calls rest (fold_left save_one before w))%list.
Proof.
  revert w. induction before as [| first before IH]; intros w; cbn.
  - reflexivity.
  - rewrite IH, <- app_assoc. reflexivity.
Qed.

(** Every entry of the loop has its turn, in the world the turns before it
    have left, whatever happened in them. *)
Lemma save_loop_calls_turn (entries : list (string * Client E)) (w : W)
    (entry : string * Client E) :
  entry ∈ entries ->
  exists before after,
    entries = (before ++ entry :: after)%list /\
    forall call,
      call ∈ save_one_calls (fold_left save_one before w) entry ->
      call ∈ save_loop_calls entries w.
Proof.
  intros Hin. apply list_elem_of_split in Hin as (before & after & ->).
  exists before, after. split; [reflexivity |].
  intros call Hcall. rewrite save_loop_calls_app. cbn.
  apply elem_of_app. right. apply elem_of_app. left. exact Hcall.
Qed.

(** The error of [SaveClients] is the error of writing the default marker. *)
Lemma SaveClients_result (cm : ClientManager E) (w : W) (seed : list nat) :
  (SaveClients cm w seed).2 =
    if String.eqb (defaultClient cm) "" then None
    else
      match (os_WriteFile (E := E)
               (fold_left save_one (range_order seed (clients cm)) w)
               (default_file cm) (defaultClient cm)).2 with
      | Some cause => Some (fmt_Errorf_w "failed to save default client: " cause)
      | None => None
      end.
Proof.
  unfold SaveClients, default_file.
  destruct (String.eqb (defaultClient cm) ""); cbn [negb]; [reflexivity |].
  destruct (os_WriteFile _ _ _) as [w1 [cause |]]; reflexivity.
Qed.

(** The log after [SaveClients]: the calls of the loop, then the write of the
    default marker when there is a default. *)
Lemma SaveClients_logged (cm : ClientManager E) (w : W) (log : list SysCall)
    (seed : list nat) :
  (SaveClients (W := Logged W) cm (w, log) seed).1.2 =
    (log ++ save_loop_calls (range_order seed (clients cm)) w ++
       (if String.eqb (defaultClient cm) "" then []
        else [SysWriteFile (default_file cm) (defaultClient cm)]))%list.
Proof.
  unfold SaveClients. rewrite save_loop_logged.
  destruct (String.eqb (defaultClient cm) ""); cbn [negb].
  - cbn. rewrite app_nil_r. reflexivity.
  - cbn. unfold logged_step, default_file.
    destruct (os_WriteFile _ _ _) as [w1 [cause |]]; cbn;
      rewrite <- app_assoc; reflexivity.
Qed.

(** C5, as the code has it. [SaveClients] returns a failure only for the
    default marker: with no default it returns none, and otherwise what it
    returns is the failure, wrapped, of writing the marker after the loop.  A client's
    failed save is not returned.  Whatever the other saves did, every client
    of the map has its turn: the write of its state file is made when its
    state can be marshalled, the warning is printed when its save fails in
    the world the turns before it have left, and the default marker is
    written after the loop. *)
Theorem SaveClients_returns_only_marker_failure (cm : ClientManager E) (w : W)
    (log : list SysCall) (seed : list nat) :
  (defaultClient cm = "" -> (SaveClients cm w seed).2 = None) /\
  (forall err, (SaveClients cm w seed).2 = Some err ->
     defaultClient cm <> "" /\
     exists cause,
       (os_WriteFile (E := E) (fold_left save_one (range_order seed (clients cm)) w)
          (default_file cm) (defaultClient cm)).2 = Some cause /\
       err = fmt_Errorf_w "failed to save default client: " cause) /\
  exists calls,
    (SaveClients (W := Logged W) cm (w, log) seed).1.2 = (log ++ calls)%list /\
    (forall id c data,
       clients cm !! id = Some c ->
       json_MarshalIndent (W := W) (E := E) (GetState c) = inl data ->
       SysWriteFile (state_file c) data ∈ calls) /\
    (forall id c,
       clients cm !! id = Some c ->
       exists before after,
         range_order seed (clients cm) = (before ++ (id, c) :: after)%list /\
         forall err,
           (SaveState c (fold_left save_one before w)).2 = Some err ->
           SysPrintf (save_warning c err) ∈ calls) /\
    (defaultClient cm <> "" ->
       SysWriteFile (default_file cm) (defaultClient cm) ∈ calls).
Proof.
  split; [| split].
  - intros Hdef. rewrite SaveClients_result, Hdef. reflexivity.
  - intros err Herr. rewrite SaveClients_result in Herr.
    destruct (String.eqb_spec (defaultClient cm) "") as [_ | Hne]; [discriminate |].
    split; [exact Hne |].
    destruct (os_WriteFile _ _ _).2 as [cause |] eqn:Hwrite; [| discriminate].
    injection Herr as <-. eauto.
  - eexists. split; [apply SaveClients_logged |].
    split; [| split].
    + intros id c data Hc Hdata.
      assert (Hin : (id, c) ∈ range_order seed (clients cm))
        by (apply elem_of_range_order, Hc).
      destruct (save_loop_calls_turn _ w _ Hin) as (before & after & _ & Hturn).
      apply elem_of_app. left. apply Hturn.
      unfold save_one_calls, SaveState_calls. cbn [snd]. rewrite Hdata.
      apply elem_of_app. left. left.
    + intros id c Hc.
      assert (Hin : (id, c) ∈ range_order seed (clients cm))
        by (apply elem_of_range_order, Hc).
      destruct (save_loop_calls_turn _ w _ Hin) as (before & after & Horder & Hturn).
      exists before, after. split; [exact Horder |]. intros err Herr.
      apply elem_of_app. left. apply Hturn.
      unfold save_one_calls. cbn [snd]. rewrite Herr.
      apply elem_of_app. right. left.
    + intros Hne. apply elem_of_app. right.
      destruct (String.eqb_spec (defaultClient cm) "") as [Heq | _]; [contradiction |].
      left.
Qed.

End SaveFacts.

(** * The properties on the small engine and platform *)

(** ** GetState *)

Lemma GetState_status_recomputed_witness :
  cs_Status (GetState (Sim.client_of "work" Sim.logged_in_engine)) = StatusConnected /\
  cs_Status (GetState (Sim.client_of "work" Sim.connected_engine)) = StatusDisconnected /\
  cs_Status (GetState Sim.failed_client) = StatusError.
Proof.
  split; [| split].
  - apply (proj1 (GetState_status_recomputed (Sim.client_of "work" Sim.logged_in_engine))).
    reflexivity.
  - apply (proj1 (proj2 (GetState_status_recomputed
                           (Sim.client_of "work" Sim.connected_engine))));
      reflexivity.
  - apply (proj2 (proj2 (GetState_status_recomputed Sim.failed_client)));
      reflexivity.
Defined.

(** ** GenerateQR *)

Lemma GenerateQR_wait_outcome_witness :
  (GenerateQR (Sim.client_of "work" Sim.fresh_engine) 5 false).2 = ("2@abc", None).
Proof.
  edestruct (GenerateQR_wait_outcome (Sim.client_of "work" Sim.fresh_engine) 5 false)
    as [Hevent _]; [reflexivity | reflexivity | reflexivity |].
  edestruct Hevent as [Hcode _]; [reflexivity | reflexivity |].
  apply Hcode. reflexivity.
Defined.

(** The wait on a channel that never delivers ends in the timeout. *)
Example GenerateQR_silent_channel :
  (GenerateQR (Sim.client_of "work" Sim.connected_engine) 5 true).2
    = ("", Some (errors_New "timeout waiting for QR code")).
Proof. reflexivity. Qed.

Lemma GenerateQR_logged_in_untouched_witness :
  (GenerateQR (Sim.logging_client Sim.logged_in_engine) 5 false).2
    = ("", Some (errors_New "already logged in")) /\
  snd (client (GenerateQR (Sim.logging_client Sim.logged_in_engine) 5 false).1) = [].
Proof.
  edestruct (GenerateQR_logged_in_untouched (Sim.logging_client Sim.logged_in_engine)
               5 false) as (Hres & Hlog & _); [reflexivity |].
  split; [exact Hres | exact Hlog].
Defined.

(** On an engine that is connected and not logged in, the same call
    disconnects, asks for the QR channel and connects. *)
Example GenerateQR_calls_when_not_logged_in :
  snd (client (GenerateQR (Sim.logging_client Sim.connected_engine) 5 false).1)
    = [CallDisconnect; CallGetQRChannel; CallConnect].
Proof. reflexivity. Qed.

(** ** SendMessage *)

Lemma SendMessage_failure_keeps_status_witness :
  send_failure (fmt_Errorf_w "failed to send message: "
                             (errors_New "websocket not connected")) /\
  status (set_lastActivity 7 (Sim.client_of "work" Sim.flaky_engine)) = StatusLoggedOut /\
  connError (set_lastActivity 7 (Sim.client_of "work" Sim.flaky_engine)) = "".
Proof.
  apply (SendMessage_failure_keeps_status
           (Sim.client_of "work" Sim.flaky_engine)
           (set_lastActivity 7 (Sim.client_of "work" Sim.flaky_engine))
           7 "+6281234" "hello").
  reflexivity.
Defined.

Example SendMessage_rejects_empty_user :
  (SendMessage (Sim.client_of "work" Sim.flaky_engine) 7 "+" "hello").2
    = Some (errors_New "invalid recipient: empty user").
Proof. reflexivity. Qed.

(** ** The recipient formatting *)

(** C6 fails on a recipient that begins with two ['+']: the first formatting
    leaves one of them, the second removes it. *)
Lemma format_recipient_not_idempotent :
  format_recipient "++6281234" = "+6281234@s.whatsapp.net" /\
  format_recipient (format_recipient "++6281234") = "6281234@s.whatsapp.net" /\
  format_recipient (format_recipient "++6281234") <> format_recipient "++6281234".
Proof. repeat split. discriminate. Qed.

Lemma format_recipient_idempotent_witness :
  format_recipient (format_recipient "+6281234") = format_recipient "+6281234".
Proof.
  apply (proj1 format_recipient_idempotent_unless_double_plus). reflexivity.
Defined.

(** ** Connect and connError *)

(** C7 fails for [Connect]: after a failed attempt has left its message in
    [connError], a [Connect] that succeeds returns no error and the message
    is still there. *)
Lemma Connect_success_keeps_connError :
  (Connect Sim.failed_client 9).2 = None /\
  status (Connect Sim.failed_client 9).1 = StatusDisconnected /\
  connError (Connect Sim.failed_client 9).1 = "dial tcp: connection refused" /\
  connError (Connect Sim.failed_client 9).1 <> "".
Proof. repeat split. discriminate. Qed.

Lemma connected_event_clears_connError_witness :
  connError Sim.failed_client = "dial tcp: connection refused" /\
  connError (handleEvent Sim.failed_client 9 events_Connected).1 = "" /\
  status (handleEvent Sim.failed_client 9 events_Connected).1 = StatusConnected.
Proof.
  split; [reflexivity |].
  exact (connected_event_clears_connError Sim.failed_client 9).
Defined.

(** ** The default client *)

(** C2 fails for [Close] and for [LoadClients]: [Close] empties the map and
    keeps a default that was set; [LoadClients] takes the default from the
    marker file, here the name of a client that is no longer stored. *)
Lemma default_client_dangling :
  (default_ok Sim.work_registry /\
   clients (ClientManager_Close Sim.work_registry Sim.empty_world []).1 = ∅ /\
   defaultClient (ClientManager_Close Sim.work_registry Sim.empty_world []).1 = "work" /\
   ~ default_ok (ClientManager_Close Sim.work_registry Sim.empty_world []).1) /\
  (default_ok Sim.new_registry /\
   (LoadClients Sim.new_registry Sim.stale_marker_world).1.2 = None /\
   defaultClient (LoadClients Sim.new_registry Sim.stale_marker_world).1.1.1 = "home" /\
   clients (LoadClients Sim.new_registry Sim.stale_marker_world).1.1.1 !! "home" = None /\
   ~ default_ok (LoadClients Sim.new_registry Sim.stale_marker_world).1.1.1).
Proof.
  split.
  - split; [right; vm_compute; eexists; reflexivity |].
    split; [vm_compute; reflexivity |]. split; [vm_compute; reflexivity |].
    intros [Hempty | [c Hc]]; [vm_compute in Hempty; discriminate Hempty
                              | vm_compute in Hc; discriminate Hc].
  - split; [left; reflexivity |].
    split; [vm_compute; reflexivity |]. split; [vm_compute; reflexivity |].
    split; [vm_compute; reflexivity |].
    intros [Hempty | [c Hc]]; [vm_compute in Hempty; discriminate Hempty
                              | vm_compute in Hc; discriminate Hc].
Qed.

Lemma default_client_preserved_witness :
  default_ok (CreateClient Sim.two_registry Sim.empty_world "office").1.1 /\
  default_ok (DeleteClient Sim.two_registry Sim.empty_world "home" []).1.1 /\
  default_ok (SetDefaultClient Sim.two_registry Sim.empty_world "work").1.1.
Proof.
  assert (Hok : default_ok Sim.two_registry) by (right; eexists; reflexivity).
  split; [| split].
  - exact (proj1 (default_client_preserved
                    Sim.two_registry Sim.empty_world "office" [] Hok)).
  - exact (proj1 (proj2 (default_client_preserved
                           Sim.two_registry Sim.empty_world "home" [] Hok))).
  - exact (proj1 (proj2 (proj2 (default_client_preserved
                                  Sim.two_registry Sim.empty_world "work" [] Hok)))).
Defined.

(** Deleting the default of two clients makes the other one the default. *)
Example DeleteClient_moves_default :
  defaultClient (DeleteClient Sim.two_registry Sim.empty_world "home" [3%nat]).1.1 = "work".
Proof. reflexivity. Qed.

(** ** The scenario *)

Lemma work_scenario_witness :
  defaultClient (CreateClient Sim.new_registry Sim.empty_world "work").1.1 = "work" /\
  (CreateClient (CreateClient Sim.new_registry Sim.empty_world "work").1.1
                (CreateClient Sim.new_registry Sim.empty_world "work").1.2 "work").2
    = inr (errors_New "client with ID work already exists").
Proof.
  edestruct (work_scenario Sim.empty_world "data" (Some (TimerArmed (5 * time_Minute))) [])
    as ((_ & Hdefault) & (Hagain & _) & _);
    [eexists; reflexivity | eexists; reflexivity |].
  split; [exact Hdefault | exact Hagain].
Defined.

(** ** SaveClients *)

(** C5 fails for the default marker: when it cannot be written,
    [SaveClients] returns that failure. *)
Lemma SaveClients_returns_marker_failure :
  (SaveClients Sim.work_registry Sim.marker_readonly_world []).2
    = Some (fmt_Errorf_w "failed to save default client: "
                         (errors_New "permission denied")) /\
  (SaveClients Sim.work_registry Sim.marker_readonly_world []).2 <> None.
Proof. split; [vm_compute; reflexivity | vm_compute; discriminate]. Qed.

Lemma SaveClients_returns_only_marker_failure_witness :
  (SaveClients Sim.two_registry Sim.home_readonly_world []).2 = None /\
  SysWriteFile "data/work/state.json" "logged_out"
    ∈ (SaveClients (W := Logged Sim.SimWorld) Sim.two_registry
         (Sim.home_readonly_world, []) []).1.2.
Proof.
  destruct (SaveClients_returns_only_marker_failure
              Sim.two_registry Sim.home_readonly_world [] [])
    as (_ & _ & calls & Hlog & Hwrite & _).
  split; [vm_compute; reflexivity |].
  rewrite Hlog. apply elem_of_app. right.
  apply (Hwrite "work" (Sim.client_of "work" Sim.fresh_engine) "logged_out");
    vm_compute; reflexivity.
Defined.

(** The save of "home" fails, is reported, and the save of "work" and the
    write of the marker are made all the same. *)
Example SaveClients_goes_on_after_a_failure :
  (SaveClients (W := Logged Sim.SimWorld) Sim.two_registry
     (Sim.home_readonly_world, []) [1%nat]).1.2
    = [SysWriteFile "data/home/state.json" "logged_out";
       SysPrintf (save_warning (Sim.client_of "home" Sim.fresh_engine)
                    (fmt_Errorf_w "failed to write state file: "
                                  (errors_New "permission denied")));
       SysWriteFile "data/work/state.json" "logged_out";
       SysWriteFile "data/default_client" "home"].
Proof. vm_compute. reflexivity. Qed.

(** * Further properties of the client *)

Section ClientLifecycle.
Context {JID E : Type} `{!Engine JID E}.

(** ** Connect *)

(** X1. When the engine is not connected and its [Connect] fails, [Connect]
    returns that failure behind "failed to connect: ", and records the error
    status and the failure's text; the snapshot then shows both, unless the
    engine reports a connection all the same. *)
Theorem Connect_failure_recorded (c : Client E) (now : time_Time) (e : E) (err : error) :
  IsConnected (client c) = false ->
  engine_Connect (client c) = (e, Some err) ->
  (Connect c now).2 = Some (fmt_Errorf_w "failed to connect: " err) /\
  status (Connect c now).1 = StatusError /\
  connError (Connect c now).1 = Error err /\
  cs_ConnectionError (GetState (Connect c now).1) = Error err /\
  (IsConnected e = false -> IsLoggedIn e = false ->
     cs_Status (GetState (Connect c now).1) = StatusError).
Proof.
  intros Hoff Hfail. unfold Connect.
  rewrite client_set_lastActivity, Hoff, Hfail. cbn.
  repeat split. intros Hc Hl. unfold GetState. cbn. rewrite Hc, Hl. reflexivity.
Qed.

(** X2. After a [Connect] that the engine carried out, the recorded status
    is the connected one when the engine is logged in and the disconnected
    one when it is not, and it is the status the snapshot shows. *)
Theorem Connect_success_status_agrees (c : Client E) (now : time_Time) (e : E) :
  IsConnected (client c) = false ->
  engine_Connect (client c) = (e, None) ->
  (Connect c now).2 = None /\
  status (Connect c now).1
    = (if IsLoggedIn e then StatusConnected else StatusDisconnected) /\
  cs_Status (GetState (Connect c now).1) = status (Connect c now).1.
Proof.
  intros Hoff Hok. unfold Connect.
  rewrite client_set_lastActivity, Hoff, Hok. cbn.
  destruct (IsLoggedIn e) eqn:Hl; cbn; repeat split.
  - unfold GetState. cbn. rewrite Hl. reflexivity.
  - unfold GetState. cbn. rewrite Hl. destruct (IsConnected e); reflexivity.
Qed.

(** A failure of [Connect] is a failure of the engine's [Connect]. *)
Lemma Connect_error_inv (c : Client E) (now : time_Time) (failure : error) :
  (Connect c now).2 = Some failure ->
  IsConnected (client c) = false /\
  exists err, (engine_Connect (client c)).2 = Some err /\
              failure = fmt_Errorf_w "failed to connect: " err.
Proof.
  unfold Connect. rewrite client_set_lastActivity.
  destruct (IsConnected (client c)); [discriminate |].
  destruct (engine_Connect (client c)) as [e [err |]]; cbn.
  - intros [= <-]. eauto.
  - destruct (IsLoggedIn e); discriminate.
Qed.

(** ** Disconnect, Logout and Close *)

(** The outcome of [Logout], by what the engine says. *)
Lemma Logout_outcome (c : Client E) (now : time_Time) :
  (Logout c now).2 =
    (if IsLoggedIn (client c)
     then option_map (fmt_Errorf_w "failed to logout: ") (engine_Logout (client c)).2
     else None) /\
  status (Logout c now).1 =
    (if IsLoggedIn (client c)
     then match (engine_Logout (client c)).2 with
          | Some _ => StatusError
          | None => StatusLoggedOut
          end
     else status c) /\
  connError (Logout c now).1 =
    (if IsLoggedIn (client c)
     then match (engine_Logout (client c)).2 with
          | Some err => Error err
          | None => connError c
          end
     else connError c).
Proof.
  unfold Logout. rewrite client_set_lastActivity.
  destruct (IsLoggedIn (client c)); cbn; [| repeat split].
  destruct (engine_Logout (client c)) as [e [err |]]; cbn; repeat split.
Qed.

(** ** GenerateQR *)

(** X7. Whenever [GenerateQR] returns a failure, the code it returns is the
    empty string. *)
Theorem GenerateQR_failure_has_no_code (c : Client E) (now : time_Time) (tie : bool)
    (failure : error) :
  (GenerateQR c now tie).2.2 = Some failure -> (GenerateQR c now tie).2.1 = "".
Proof.
  unfold GenerateQR. rewrite client_set_lastActivity.
  destruct (IsLoggedIn (client c)); [reflexivity |].
  destruct (GetQRChannel _) as [e1 [ch | err]]; [| reflexivity].
  destruct (engine_Connect e1) as [e2 [err |]]; [reflexivity |].
  destruct (select_qr ch tie) as [evt |]; [| reflexivity].
  cbn [snd fst]. unfold qr_event_result.
  destruct (decide (Event evt = "code")); [discriminate |].
  destruct (decide (Event evt = "err-client-outdated")); reflexivity.
Qed.

(** X8. [GenerateQR] writes the status and the error text only when the QR
    channel or the connection fails: then they are the error status and the
    failure's text.  Once the engine has connected, they stay as they were
    whatever the wait gives, a code, an unexpected event or the timeout. *)
Theorem GenerateQR_status_written_before_wait (c : Client E) (now : time_Time)
    (tie : bool) :
  IsLoggedIn (client c) = false ->
  let e0 := if IsConnected (client c) then engine_Disconnect (client c) else client c in
  match (GetQRChannel e0).2 with
  | inr err =>
      (GenerateQR c now tie).2 = ("", Some (fmt_Errorf_w "failed to request QR: " err)) /\
      status (GenerateQR c now tie).1 = StatusError /\
      connError (GenerateQR c now tie).1 = Error err
  | inl ch =>
      match (engine_Connect (GetQRChannel e0).1).2 with
      | Some err =>
          (GenerateQR c now tie).2 = ("", Some (fmt_Errorf_w "failed to connect: " err)) /\
          status (GenerateQR c now tie).1 = StatusError /\
          connError (GenerateQR c now tie).1 = Error err
      | None =>
          status (GenerateQR c now tie).1 = status c /\
          connError (GenerateQR c now tie).1 = connError c
      end
  end.
Proof.
  intros Hlog e0. unfold GenerateQR.
  rewrite client_set_lastActivity, Hlog. fold e0.
  destruct (GetQRChannel e0) as [e1 [ch | err]]; cbn [fst snd]; [| repeat split].
  destruct (engine_Connect e1) as [e2 [err |]]; cbn [fst snd]; [repeat split |].
  destruct (select_qr ch tie); split; reflexivity.
Qed.

(** ** What no operation touches *)

(** X9. [Connect], [Disconnect], [Logout], [GenerateQR], [SendMessage] and
    [handleEvent] set [lastActivity] to the time of the call, whatever their
    outcome, and none of them changes the client's [ID], its data directory,
    its event handler, its pairing channel or its timers. *)
Theorem lifecycle_frame (c : Client E) (now : time_Time) (tie : bool)
    (recipient message : string) (evt : Event_t) :
  let same (c' : Client E) :=
    lastActivity c' = now /\ ID c' = ID c /\ dataDir c' = dataDir c /\
    eventHandler c' = eventHandler c /\ pairChan c' = pairChan c /\
    pairTimeout c' = pairTimeout c /\ qrTimeout c' = qrTimeout c in
  same (Connect c now).1 /\ same (Disconnect c now).1 /\ same (Logout c now).1 /\
  same (GenerateQR c now tie).1 /\ same (SendMessage c now recipient message).1 /\
  same (handleEvent c now evt).1.
Proof.
  cbv zeta.
  unfold Connect, Disconnect, Logout, GenerateQR, SendMessage, handleEvent.
  repeat match goal with
         | |- _ /\ _ => split
         | |- context [if ?b then _ else _] => destruct b
         | |- context [match ?x with _ => _ end] => destruct x
         end; reflexivity.
Qed.

(** ** handleEvent *)

(** The client [handleEvent] returns: the stamp, then the event's effect. *)
Lemma handleEvent_client (c : Client E) (now : time_Time) (evt : Event_t) :
  (handleEvent c now evt).1 =
    match evt with
    | events_QR =>
        match qrChan c with
        | Some ch =>
            set_qrChan (Some (try_send ch "qr_event_received")) (set_lastActivity now c)
        | None => set_lastActivity now c
        end
    | events_Connected =>
        set_connError "" (set_status StatusConnected (set_lastActivity now c))
    | events_Disconnected =>
        if IsLoggedIn (client c)
        then set_status StatusDisconnected (set_lastActivity now c)
        else set_status StatusLoggedOut (set_lastActivity now c)
    | events_Other _ => set_lastActivity now c
    end.
Proof.
  unfold handleEvent.
  match goal with
  | |- (match eventHandler ?x with _ => _ end).1 = _ =>
      destruct (eventHandler x); cbn [fst]
  end; destruct evt; reflexivity.
Qed.

(** X12. An event changes the status only when it is the connected or the
    disconnected one, and the error text only when it is the connected one;
    after a disconnected event the status is the disconnected one when the
    engine is still logged in and the logged-out one otherwise.  The engine is
    what it was, and the custom handler, when there is one, gets the event. *)
Theorem handleEvent_effects (c : Client E) (now : time_Time) (evt : Event_t) :
  status (handleEvent c now evt).1 =
    match evt with
    | events_Connected => StatusConnected
    | events_Disconnected =>
        if IsLoggedIn (client c) then StatusDisconnected else StatusLoggedOut
    | _ => status c
    end /\
  connError (handleEvent c now evt).1 =
    match evt with
    | events_Connected => ""
    | _ => connError c
    end /\
  client (handleEvent c now evt).1 = client c /\
  (handleEvent c now evt).2 = option_map (fun h => (h, evt)) (eventHandler c).
Proof.
  rewrite handleEvent_client.
  repeat split.
  - destruct evt; try reflexivity.
    + destruct (qrChan c); reflexivity.
    + destruct (IsLoggedIn (client c)); reflexivity.
  - destruct evt; try reflexivity.
    + destruct (qrChan c); reflexivity.
    + destruct (IsLoggedIn (client c)); reflexivity.
  - destruct evt; try reflexivity.
    + destruct (qrChan c); reflexivity.
    + destruct (IsLoggedIn (client c)); reflexivity.
  - unfold handleEvent.
    match goal with
    | |- (match eventHandler ?x with _ => _ end).2 = _ =>
        assert (Hh : eventHandler x = eventHandler c)
          by (destruct evt; cbn; try reflexivity;
              [destruct (qrChan c) | destruct (IsLoggedIn (client c))]; reflexivity);
        rewrite Hh
    end.
    destruct (eventHandler c); reflexivity.
Qed.

End ClientLifecycle.

(** ** The calls made on the engine *)

Section EngineCalls.
Context {JID E : Type} `{!Engine JID E}.

(** X3. [Connect] calls the engine's [Connect] once when the engine is not
    connected and makes no call when it is; in that case the status and the
    error text stay as they were, stale or not. *)
Theorem Connect_calls (c : Client (Traced JID E)) (now : time_Time) :
  calls_of (Connect c now).1
    = (calls_of c ++ (if IsConnected (client c) then [] else [CallConnect]))%list /\
  (IsConnected (client c) = true ->
     (Connect c now).2 = None /\
     status (Connect c now).1 = status c /\
     connError (Connect c now).1 = connError c).
Proof.
  unfold Connect, calls_of. cbn [client set_lastActivity].
  destruct (IsConnected (client c)) eqn:Hc.
  - cbn. rewrite app_nil_r. repeat split.
  - split; [| discriminate].
    cbn. unfold traced_step.
    destruct (engine_Connect (client c).1) as [e [err |]]; cbn; [reflexivity |].
    destruct (IsLoggedIn e); reflexivity.
Qed.

(** X4. [Disconnect] and [Close] never fail; each calls the engine's
    [Disconnect] once when the engine is connected and makes no call when it
    is not.  [Disconnect] then records the disconnected status; [Close]
    leaves the recorded status as it was. *)
Theorem Disconnect_and_Close_calls (c : Client (Traced JID E)) (now : time_Time) :
  ((Disconnect c now).2 = None /\
   calls_of (Disconnect c now).1
     = (calls_of c ++ (if IsConnected (client c) then [CallDisconnect] else []))%list /\
   status (Disconnect c now).1
     = (if IsConnected (client c) then StatusDisconnected else status c)) /\
  ((Close c).2 = None /\
   calls_of (Close c).1
     = (calls_of c ++ (if IsConnected (client c) then [CallDisconnect] else []))%list /\
   status (Close c).1 = status c /\
   lastActivity (Close c).1 = lastActivity c).
Proof.
  unfold Disconnect, Close, calls_of. cbn [client set_lastActivity].
  destruct (IsConnected (client c)); cbn; rewrite ?app_nil_r; repeat split.
Qed.

(** X5. [Logout] calls the engine's [Logout] once when the engine is logged
    in and makes no call when it is not.  When the engine's call fails, the
    failure is returned behind "failed to logout: " and recorded with the
    error status; when it succeeds the status is the logged-out one and the
    error text is kept. *)
Theorem Logout_calls (c : Client (Traced JID E)) (now : time_Time) :
  calls_of (Logout c now).1
    = (calls_of c ++ (if IsLoggedIn (client c) then [CallLogout] else []))%list /\
  (IsLoggedIn (client c) = false ->
     (Logout c now).2 = None /\ status (Logout c now).1 = status c) /\
  (forall err,
     IsLoggedIn (client c) = true ->
     (engine_Logout (client c).1).2 = Some err ->
     (Logout c now).2 = Some (fmt_Errorf_w "failed to logout: " err) /\
     status (Logout c now).1 = StatusError /\
     connError (Logout c now).1 = Error err) /\
  (IsLoggedIn (client c) = true ->
   (engine_Logout (client c).1).2 = None ->
     (Logout c now).2 = None /\
     status (Logout c now).1 = StatusLoggedOut /\
     connError (Logout c now).1 = connError c).
Proof.
  pose proof (Logout_outcome c now) as (Hres & Hst & Hce).
  split; [| split; [| split]].
  - unfold Logout, calls_of. cbn [client set_lastActivity].
    destruct (IsLoggedIn (client c)); cbn; [| rewrite app_nil_r; reflexivity].
    unfold traced_step. destruct (engine_Logout (client c).1) as [e [err |]]; reflexivity.
  - intros Hl. rewrite Hres, Hst, Hl. split; reflexivity.
  - intros err Hl Hfail. rewrite Hres, Hst, Hce, Hl. cbn in *.
    unfold traced_step. cbn. rewrite Hfail. repeat split.
  - intros Hl Hok. rewrite Hres, Hst, Hce, Hl. cbn in *.
    unfold traced_step. cbn. rewrite Hok. repeat split.
Qed.

(** X6. On an engine that is not logged in, [GenerateQR] disconnects first
    when the engine is connected, then asks for the QR channel, and calls
    [Connect] only after the channel was handed out: [Connect] is never
    called before [GetQRChannel] nor when [GetQRChannel] fails. *)
Theorem GenerateQR_calls (c : Client (Traced JID E)) (now : time_Time) (tie : bool) :
  IsLoggedIn (client c) = false ->
  let e0 := if IsConnected (client c)
            then engine_Disconnect (client c).1 else (client c).1 in
  calls_of (GenerateQR c now tie).1
    = (calls_of c
         ++ (if IsConnected (client c) then [CallDisconnect] else [])
         ++ [CallGetQRChannel]
         ++ match (GetQRChannel e0).2 with
            | inl _ => [CallConnect]
            | inr _ => []
            end)%list.
Proof.
  intros Hlog e0. unfold GenerateQR, calls_of. cbn [client set_lastActivity].
  rewrite Hlog. subst e0.
  destruct (IsConnected (client c)) eqn:Hc; cbn; unfold traced_step; cbn;
    destruct (GetQRChannel _) as [e1 [ch | err]]; cbn;
    try (destruct (engine_Connect e1) as [e2 [err' |]]; cbn;
         try destruct (select_qr ch tie));
    cbn; rewrite <- ?app_assoc; reflexivity.
Qed.

(** X10. [SendMessage] calls the engine's [SendMessage] at most once, and
    only on an engine that is connected and logged in, with the message as
    given and the JID that the formatted recipient parses to, whose server
    is the user server and whose user is not empty; it makes no other call. *)
Theorem SendMessage_calls (c : Client (Traced JID E)) (now : time_Time)
    (recipient message : string) :
  calls_of (SendMessage c now recipient message).1 = calls_of c \/
  exists jid,
    calls_of (SendMessage c now recipient message).1
      = (calls_of c ++ [CallSendMessage jid message])%list /\
    IsConnected (client c) = true /\ IsLoggedIn (client c) = true /\
    types_ParseJID (E := E) (format_recipient recipient) = inl jid /\
    JID_Server (E := E) jid = DefaultUserServer /\
    JID_User (E := E) jid <> "".
Proof.
  unfold SendMessage, calls_of. cbn [client set_lastActivity].
  destruct (IsConnected (client c)) eqn:Hc; cbn [negb]; [| left; reflexivity].
  destruct (IsLoggedIn (client c)) eqn:Hl; cbn [negb]; [| left; reflexivity].
  change (@types_ParseJID JID (Traced JID E) traced_engine)
    with (@types_ParseJID JID E _).
  destruct (types_ParseJID (format_recipient recipient)) as [jid | err] eqn:Hp;
    [| left; reflexivity].
  change (@JID_Server JID (Traced JID E) traced_engine jid)
    with (@JID_Server JID E _ jid).
  change (@JID_User JID (Traced JID E) traced_engine jid)
    with (@JID_User JID E _ jid).
  destruct (String.eqb_spec (JID_Server (E := E) jid) DefaultUserServer) as [Hs | Hs];
    cbn [negb]; [| left; reflexivity].
  destruct (String.eqb_spec (JID_User (E := E) jid) "") as [Hu | Hu];
    [left; reflexivity |].
  right. exists jid. cbn. unfold traced_step.
  destruct (engine_SendMessage (client c).1 jid message) as [e [err |]]; cbn;
    repeat split; assumption.
Qed.

End EngineCalls.

(** * Further properties of the registry *)

Section RegistryLookup.
Context {JID E W : Type} `{!Engine JID E} `{!Platform W E}.

(** ** NewClient *)


Lemma NewClient_built (w w1 : W) (id dir : string) (c : Client E) :
  NewClient w id dir = (w1, inl c) -> id <> "" /\ ID c = id /\ status c = StatusLoggedOut.
Proof.
  unfold NewClient.
  destruct (decide (id = "")) as [-> | Hid]; [discriminate |].
  destruct (os_MkdirAll w _) as [w2 [err |]]; [discriminate |].
  destruct (sqlstore_New w2 _) as [w3 [container | err]]; [| discriminate].
  destruct (GetFirstDevice w3 container) as [w4 [device | err]]; [| discriminate].
  intros [= _ <-]. repeat split. exact Hid.
Qed.

(** ** GetClient *)

(** X15. [GetClient] looks up the id, and the default when the id is empty.
    It returns exactly the client the map holds under that key; with an empty
    id and no default it fails with "no default client set", and with a key
    the map does not hold it fails with the not-found error that names the
    key. *)
Theorem GetClient_lookup (cm : ClientManager E) (id : string) :
  let key := if decide (id = "") then defaultClient cm else id in
  (id = "" -> defaultClient cm = "" ->
     GetClient cm id = inr (errors_New "no default client set")) /\
  ((id <> "" \/ defaultClient cm <> "") ->
     GetClient cm id =
       match clients cm !! key with
       | Some c => inl c
       | None => inr (errors_New ("client " ++ key ++ " not found"))
       end) /\
  (forall c,
     GetClient cm "" = inl c <->
     defaultClient cm <> "" /\ clients cm !! defaultClient cm = Some c).
Proof.
  cbv zeta. unfold GetClient. split; [| split].
  - intros Hid Hd. rewrite (decide_True (P := id = "")) by exact Hid.
    rewrite (decide_True (P := defaultClient cm = "")) by exact Hd. reflexivity.
  - intros Hset. destruct (decide (id = "")) as [Hid | Hid].
    + destruct Hset as [Hbad | Hd]; [contradiction |].
      rewrite (decide_False (P := defaultClient cm = "")) by exact Hd. reflexivity.
    + reflexivity.
  - intros c. rewrite (decide_True (P := "" = "")) by reflexivity.
    destruct (decide (defaultClient cm = "")) as [Hd | Hd].
    + split; [discriminate | tauto].
    + destruct (clients cm !! defaultClient cm) as [c0 |].
      * split; [intros [= <-]; tauto | intros [_ [= <-]]; reflexivity].
      * split; [discriminate | intros [_ Hbad]; discriminate].
Qed.

(** ** CreateClient *)

(** X16. A [CreateClient] that fails leaves the registry as it was; when the
    id is empty or taken it leaves the world as it was too, and the failure
    says which of the two it is. *)
Theorem CreateClient_failure_changes_nothing (cm : ClientManager E) (w : W) (id : string)
    (err : error) :
  (CreateClient cm w id).2 = inr err ->
  (CreateClient cm w id).1.1 = cm /\
  (id = "" -> (CreateClient cm w id).1.2 = w /\
              err = errors_New "client ID cannot be empty") /\
  (id <> "" -> is_Some (clients cm !! id) ->
     (CreateClient cm w id).1.2 = w /\
     err = errors_New ("client with ID " ++ id ++ " already exists")).
Proof.
  unfold CreateClient.
  destruct (decide (id = "")) as [Hid | Hid].
  - cbn. intros [= <-]. repeat split; tauto.
  - destruct (clients cm !! id) as [c0 |] eqn:Hc.
    + cbn. intros [= <-]. repeat split; tauto.
    + destruct (NewClient w id (cm_dataDir cm)) as [w1 [c | e]].
      * cbn [set_clients clients defaultClient].
        destruct (_ && _); destruct (SaveState c w1) as [w2 [e |]]; discriminate.
      * cbn. intros [= <-]. split; [reflexivity |]. split; [tauto |].
        intros _ [c0 Hc0]. discriminate.
Qed.

(** X17. A [CreateClient] that succeeds was given an id that is not empty
    and was not in the map; the client it returns carries that id, is in the
    map under it and is what [GetClient] returns for it; the other entries
    are as they were; and the default is the new id when the map was empty
    and there was no default, and is unchanged otherwise. *)
Theorem CreateClient_success (cm : ClientManager E) (w : W) (id : string) (c : Client E) :
  (CreateClient cm w id).2 = inl c ->
  id <> "" /\ clients cm !! id = None /\ ID c = id /\
  clients (CreateClient cm w id).1.1 = <[id := c]> (clients cm) /\
  GetClient (CreateClient cm w id).1.1 id = inl c /\
  size (clients (CreateClient cm w id).1.1) = S (size (clients cm)) /\
  defaultClient (CreateClient cm w id).1.1
    = (if (size (clients cm) =? 0)%nat && String.eqb (defaultClient cm) ""
       then id else defaultClient cm).
Proof.
  intros Hok.
  assert (Hid : id <> "").
  { intros ->. unfold CreateClient in Hok. cbn in Hok. discriminate. }
  assert (Hnone : clients cm !! id = None).
  { unfold CreateClient in Hok. rewrite decide_False in Hok by exact Hid.
    destruct (clients cm !! id); [discriminate | reflexivity]. }
  destruct (NewClient w id (cm_dataDir cm)) as [w1 [c1 | e]] eqn:Hnew.
  - destruct (CreateClient_fresh cm w w1 id c1 Hid Hnone Hnew) as (Hres & Hmap & Hdef).
    rewrite Hres in Hok. injection Hok as ->.
    destruct (NewClient_built _ _ _ _ _ Hnew) as (_ & HID & _).
    repeat split; try assumption.
    + unfold GetClient. rewrite decide_False by exact Hid.
      rewrite Hmap, lookup_insert_eq. reflexivity.
    + rewrite Hmap. apply map_size_insert_None, Hnone.
    + rewrite Hdef, (map_size_insert_None _ _ _ Hnone). reflexivity.
  - unfold CreateClient in Hok. rewrite decide_False in Hok by exact Hid.
    rewrite Hnone, Hnew in Hok. discriminate.
Qed.

(** ** DeleteClient *)

(** X18. [DeleteClient] fails exactly when the id is not in the map, and
    then changes nothing.  After it the id is not in the map, [GetClient]
    does not find it, every other entry is as it was, and the default is as
    it was unless it was the deleted id. *)
Theorem DeleteClient_frame (cm : ClientManager E) (w : W) (id : string) (seed : list nat) :
  ((DeleteClient cm w id seed).2 = None <-> is_Some (clients cm !! id)) /\
  (clients cm !! id = None -> (DeleteClient cm w id seed).1 = (cm, w)) /\
  clients (DeleteClient cm w id seed).1.1 !! id = None /\
  (id <> "" ->
     GetClient (DeleteClient cm w id seed).1.1 id
       = inr (errors_New ("client " ++ id ++ " not found"))) /\
  (forall other, other <> id ->
     clients (DeleteClient cm w id seed).1.1 !! other = clients cm !! other) /\
  (defaultClient cm <> id ->
     defaultClient (DeleteClient cm w id seed).1.1 = defaultClient cm).
Proof.
  destruct (clients cm !! id) as [c |] eqn:Hc.
  - destruct (DeleteClient_found cm w id seed c Hc) as (Hres & Hmap & Hdef).
    assert (Hgone : clients (DeleteClient cm w id seed).1.1 !! id = None)
      by (rewrite Hmap; apply lookup_delete_eq).
    repeat split.
    + eauto.
    + intros _. exact Hres.
    + discriminate.
    + exact Hgone.
    + intros Hid. unfold GetClient. rewrite decide_False by exact Hid.
      rewrite Hgone. reflexivity.
    + intros other Hne. rewrite Hmap. apply lookup_delete_ne. congruence.
    + intros Hne. rewrite Hdef. rewrite decide_False by exact Hne. reflexivity.
  - rewrite (DeleteClient_missing cm w id seed Hc). cbn.
    repeat split.
    + discriminate.
    + intros [c Hsome]. discriminate.
    + exact Hc.
    + intros Hid. unfold GetClient. rewrite decide_False by exact Hid.
      rewrite Hc. reflexivity.
Qed.

(** ** SetDefaultClient *)

(** X19. [SetDefaultClient] fails with the not-found error and changes
    nothing when the id is not in the map.  When it is, the id is the default
    afterwards, also when the marker cannot be written: the failure returned
    is then the failure of that write, and the default in memory has changed
    all the same.  The map is never changed. *)
Theorem SetDefaultClient_outcome (cm : ClientManager E) (w : W) (id : string) :
  (clients cm !! id = None ->
     SetDefaultClient cm w id
       = (cm, w, Some (errors_New ("client " ++ id ++ " not found")))) /\
  (is_Some (clients cm !! id) ->
     GetDefaultClient (SetDefaultClient cm w id).1.1 = id /\
     (SetDefaultClient cm w id).2
       = option_map (fmt_Errorf_w "failed to save default client: ")
                    (os_WriteFile (E := E) w (default_file (W := W) cm) id).2 /\
     (id <> "" -> GetClient (SetDefaultClient cm w id).1.1 "" = GetClient cm id)) /\
  clients (SetDefaultClient cm w id).1.1 = clients cm.
Proof.
  unfold SetDefaultClient, default_file, GetDefaultClient.
  destruct (clients cm !! id) as [c |] eqn:Hc.
  - split; [discriminate |]. cbn [set_defaultClient cm_dataDir].
    assert (Hget : id <> "" -> GetClient (set_defaultClient id cm) "" = GetClient cm id).
    { intros Hid. unfold GetClient. cbn [set_defaultClient defaultClient clients].
      rewrite (decide_True (P := "" = "")) by reflexivity.
      rewrite !(decide_False (P := id = "")) by exact Hid. reflexivity. }
    destruct (os_WriteFile w _ id) as [w1 [err |]]; cbn [fst snd option_map];
      (split; [| reflexivity]); intros _; (split; [reflexivity |]);
      (split; [reflexivity | exact Hget]).
  - split; [reflexivity |]. split; [| reflexivity]. intros [c Hsome]. discriminate.
Qed.

(** ** ListClients *)

(** X20. [ListClients] returns the snapshots of the clients of the map, each
    once, in the order of the range: as many snapshots as the map has
    entries, the snapshot of every client of the map among them, and nothing
    that is not the snapshot of one. *)
Theorem ListClients_snapshots (cm : ClientManager E) (seed : list nat) :
  ListClients cm seed ≡ₚ map (fun entry => GetState entry.2) (map_to_list (clients cm)) /\
  length (ListClients cm seed) = size (clients cm) /\
  (forall id c, clients cm !! id = Some c -> GetState c ∈ ListClients cm seed) /\
  (forall st, st ∈ ListClients cm seed ->
     exists id c, clients cm !! id = Some c /\ st = GetState c).
Proof.
  unfold ListClients.
  pose proof (range_order_Permutation seed (clients cm)) as Hperm.
  repeat split.
  - apply Permutation_map, Hperm.
  - rewrite length_map, Hperm. apply length_map_to_list.
  - intros id c Hc. apply list_elem_of_fmap. exists (id, c).
    split; [reflexivity |]. apply elem_of_range_order, Hc.
  - intros st Hst. apply list_elem_of_fmap in Hst as ([id c] & -> & Hin).
    exists id, c. split; [| reflexivity]. apply (elem_of_range_order seed), Hin.
Qed.

End RegistryLookup.

(** ** What the registry asks of the platform *)

Section CloseLoop.
Context {JID E W : Type} `{!Engine JID E} `{!Platform W E}.

(** A turn of the loop of [Close] leaves the world a turn of the loop of
    [SaveClients] leaves: closing a client never fails and prints nothing. *)
Lemma close_one_save_one (w : W) (entry : string * Client E) :
  close_one w entry = save_one w entry.
Proof.
  unfold close_one, save_one, Close.
  destruct (SaveState entry.2 w) as [w1 [err |]];
    destruct (IsConnected (client entry.2)); reflexivity.
Qed.

Lemma close_loop_save_loop (entries : list (string * Client E)) (w : W) :
  fold_left close_one entries w = fold_left save_one entries w.
Proof.
  revert w. induction entries as [| entry rest IH]; intros w; cbn.
  - reflexivity.
  - rewrite close_one_save_one. apply IH.
Qed.

End CloseLoop.

Section RegistryWorld.
Context {JID E W : Type} `{!Engine JID E} `{!Platform W E}.

(** On the platform with a log, [NewClient] adds the making of the client's
    directory, which is the first thing it asks once the id is not empty. *)
Lemma NewClient_logged (w : W) (log : list SysCall) (id dir : string) :
  NewClient (W := Logged W) (w, log) id dir =
    (((NewClient w id dir).1,
      (log ++ (if decide (id = "") then []
               else [SysMkdirAll (filepath_Join (W := W) (E := E) [dir; id])]))%list),
     (NewClient w id dir).2).
Proof.
  unfold NewClient.
  destruct (decide (id = "")); cbn; [rewrite app_nil_r; reflexivity |].
  unfold logged_step.
  destruct (os_MkdirAll w _) as [w1 [err |]]; cbn; [reflexivity |].
  destruct (sqlstore_New w1 _) as [w2 [container | err]]; cbn; [| reflexivity].
  destruct (GetFirstDevice w2 container) as [w3 [device | err]]; reflexivity.
Qed.

(** X13. A [CreateClient] that succeeds has made the client's directory and
    then tried to save the client's first state: the state file is written
    when the state can be marshalled, and when the save fails a warning is
    printed and the client is created all the same. *)
Theorem CreateClient_first_save (cm : ClientManager E) (w : W) (log : list SysCall)
    (id : string) (c : Client E) :
  (CreateClient cm w id).2 = inl c ->
  (CreateClient (W := Logged W) cm (w, log) id).2 = inl c /\
  (CreateClient (W := Logged W) cm (w, log) id).1.2.2
    = (log ++ [SysMkdirAll (filepath_Join (W := W) (E := E) [cm_dataDir cm; id])]
           ++ SaveState_calls (W := W) c
           ++ match (SaveState c (NewClient w id (cm_dataDir cm)).1).2 with
              | Some err => [SysPrintf (initial_save_warning id err)]
              | None => []
              end)%list.
Proof.
  intros Hok.
  assert (Hnew : id <> "" /\ clients cm !! id = None /\
                 (NewClient w id (cm_dataDir cm)).2 = inl c).
  { unfold CreateClient in Hok.
    destruct (decide (id = "")) as [Hid | Hid]; [discriminate |].
    destruct (clients cm !! id); [discriminate |].
    destruct (NewClient w id (cm_dataDir cm)) as [w1 [c1 | err]]; [| discriminate].
    cbn [set_clients clients defaultClient] in Hok.
    destruct ((size (<[id:=c1]> (clients cm)) =? 1)%nat
              && String.eqb (defaultClient cm) "");
      destruct (SaveState c1 w1) as [w2 [err |]]; injection Hok as <-; auto. }
  destruct Hnew as (Hid & Hnone & Hbuilt).
  unfold CreateClient. rewrite NewClient_logged.
  rewrite !(decide_False (P := id = "")) by exact Hid. rewrite Hnone.
  destruct (NewClient w id (cm_dataDir cm)) as [w1 r]. cbn in Hbuilt. subst r.
  cbn [fst snd set_clients clients defaultClient].
  rewrite SaveState_logged.
  destruct ((size (<[id:=c]> (clients cm)) =? 1)%nat
            && String.eqb (defaultClient cm) "");
    destruct (SaveState c w1) as [w2 [err |]];
    cbn; (split; [reflexivity |]);
    unfold initial_save_warning; rewrite <- ?app_assoc; cbn;
    rewrite ?app_nil_r; reflexivity.
Qed.

(** X21. [DeleteClient] of a client of the map waits one second and then
    removes the directory of the id under the data directory; when the
    removal fails it prints a warning and still returns no failure.  For an
    id that is not in the map it asks nothing of the platform. *)
Theorem DeleteClient_platform_calls (cm : ClientManager E) (w : W) (log : list SysCall)
    (id : string) (seed : list nat) :
  let dir := filepath_Join (W := W) (E := E) [cm_dataDir cm; id] in
  (clients cm !! id = None ->
     (DeleteClient (W := Logged W) cm (w, log) id seed).1.2 = (w, log)) /\
  (is_Some (clients cm !! id) ->
     (DeleteClient (W := Logged W) cm (w, log) id seed).2 = None /\
     (DeleteClient (W := Logged W) cm (w, log) id seed).1.2.2
       = (log ++ [SysSleep (1 * time_Second); SysRemoveAll dir]
              ++ match (os_RemoveAll (E := E) (time_Sleep (E := E) w (1 * time_Second)) dir).2 with
                 | Some err => [SysPrintf (remove_warning id err)]
                 | None => []
                 end)%list).
Proof.
  cbv zeta. split.
  - intros Hc. unfold DeleteClient. rewrite Hc. reflexivity.
  - intros [c Hc]. unfold DeleteClient. rewrite Hc. unfold Close.
    destruct (IsConnected (client (set_client (shutdown_engine (client c)) c)));
      cbn [set_clients set_defaultClient clients defaultClient cm_dataDir];
      destruct (decide (defaultClient cm = id));
      cbn [set_clients set_defaultClient clients defaultClient cm_dataDir];
      try destruct (0 <? size (delete id (clients cm)))%nat;
      cbn [set_clients set_defaultClient clients defaultClient cm_dataDir];
      cbn; unfold logged_step; cbn;
      destruct (os_RemoveAll _ _) as [w1 [err |]]; cbn;
      rewrite <- ?app_assoc; split; reflexivity.
Qed.

(** ** Close *)

(** X22. [Close] leaves an empty map, a stopped timer and the default as it
    was.  It saves the state of every client the way the loop of
    [SaveClients] does, and it does not write the default marker: what
    [SaveClients] asks of the platform is what [Close] asks, followed by the
    write of the marker when there is a default. *)
Theorem ClientManager_Close_saves (cm : ClientManager E) (w : W) (log : list SysCall)
    (seed : list nat) :
  clients (ClientManager_Close cm w seed).1 = ∅ /\
  saveTimer (ClientManager_Close cm w seed).1
    = match saveTimer cm with Some _ => Some TimerStopped | None => None end /\
  ListClients (ClientManager_Close cm w seed).1 seed = [] /\
  (ClientManager_Close cm w seed).2
    = fold_left save_one (range_order seed (clients cm)) w /\
  (SaveClients (W := Logged W) cm (w, log) seed).1.2
    = ((ClientManager_Close (W := Logged W) cm (w, log) seed).2.2
         ++ (if String.eqb (defaultClient cm) "" then []
             else [SysWriteFile (default_file (W := W) cm) (defaultClient cm)]))%list /\
  (forall id c data,
     clients cm !! id = Some c ->
     json_MarshalIndent (W := W) (E := E) (GetState c) = inl data ->
     exists earlier later,
       (ClientManager_Close (W := Logged W) cm (w, log) seed).2.2
         = (log ++ earlier ++ SysWriteFile (state_file (W := W) c) data :: later)%list).
Proof.
  assert (Hworld : forall (V : Type) (P : Platform V E) (v : V),
            (ClientManager_Close (W := V) cm v seed).2
              = fold_left (save_one (W := V)) (range_order seed (clients cm)) v).
  { intros V P v. unfold ClientManager_Close.
    destruct (saveTimer cm); cbn [snd set_saveTimer clients];
      apply close_loop_save_loop. }
  assert (Hlog : (ClientManager_Close (W := Logged W) cm (w, log) seed).2.2
                 = (log ++ save_loop_calls (range_order seed (clients cm)) w)%list).
  { rewrite (Hworld (Logged W) _ (w, log)), save_loop_logged. reflexivity. }
  split; [| split; [| split; [| split; [| split]]]].
  - unfold ClientManager_Close. destruct (saveTimer cm); reflexivity.
  - unfold ClientManager_Close.
    destruct (saveTimer cm) eqn:Htimer; cbn; rewrite ?Htimer; reflexivity.
  - unfold ListClients, ClientManager_Close.
    destruct (saveTimer cm); cbn; rewrite range_order_empty; reflexivity.
  - apply Hworld.
  - rewrite Hlog, SaveClients_logged, <- app_assoc. reflexivity.
  - intros id c data Hc Hdata. rewrite Hlog.
    assert (Hin : (id, c) ∈ range_order seed (clients cm))
      by (apply elem_of_range_order, Hc).
    apply list_elem_of_split in Hin as (before & after & Horder).
    rewrite Horder, save_loop_calls_app. cbn [save_loop_calls].
    unfold save_one_calls at 1, SaveState_calls. cbn [snd]. rewrite Hdata.
    exists (save_loop_calls before w). eexists. cbn [app]. reflexivity.
Qed.

(** ** periodicSave *)

(** X23. [periodicSave] keeps the map, the default and the data directory,
    and arms the timer for five minutes again.  It saves as [SaveClients]
    does; a failure of [SaveClients] is printed and goes no further. *)
Theorem periodicSave_outcome (cm : ClientManager E) (w : W) (log : list SysCall)
    (seed : list nat) :
  clients (periodicSave cm w seed).1 = clients cm /\
  defaultClient (periodicSave cm w seed).1 = defaultClient cm /\
  cm_dataDir (periodicSave cm w seed).1 = cm_dataDir cm /\
  saveTimer (periodicSave cm w seed).1
    = match saveTimer cm with
      | Some _ => Some (TimerArmed (5 * time_Minute))
      | None => None
      end /\
  (periodicSave (W := Logged W) cm (w, log) seed).2.2
    = ((SaveClients (W := Logged W) cm (w, log) seed).1.2
         ++ match (SaveClients cm w seed).2 with
            | Some err =>
                [SysPrintf ("Warning: Failed to save clients: " ++ Error err ++ newline)]
            | None => []
            end)%list.
Proof.
  unfold periodicSave. repeat split.
  assert (Hsame : (SaveClients (W := Logged W) cm (w, log) seed).2
                  = (SaveClients cm w seed).2).
  { rewrite !SaveClients_result. rewrite save_loop_logged.
    destruct (String.eqb (defaultClient cm) ""); [reflexivity |].
    cbn. unfold logged_step. cbn. reflexivity. }
  destruct (SaveClients (W := Logged W) cm (w, log) seed) as [[w1 log1] r] eqn:Hs.
  cbn in Hsame. rewrite <- Hsame.
  destruct r as [err |]; cbn; [reflexivity | rewrite app_nil_r; reflexivity].
Qed.

(** ** LoadClients *)

(** An entry that is not a directory, or whose directory has no state file,
    is passed over. *)
Lemma load_one_skips (cm : ClientManager E) (w : W) (spawned : list string)
    (entry : DirEntry) :
  IsDir entry = false \/
  os_Stat_IsNotExist (E := E) w
    (filepath_Join (W := W) (E := E) [cm_dataDir cm; Name entry; "state.json"]) = true ->
  load_one (cm, w, spawned) entry = (cm, w, spawned).
Proof.
  intros Hskip. unfold load_one.
  destruct (IsDir entry); cbn [negb]; [| reflexivity].
  destruct Hskip as [Hbad | Hstat]; [discriminate |]. rewrite Hstat. reflexivity.
Qed.

(** X24. When the data directory cannot be read, [LoadClients] fails with
    that failure and changes nothing.  When no entry of the data directory is
    a directory that has a state file, [LoadClients] succeeds and changes
    nothing either: the default marker is read only after a client has been
    loaded, so a marker alone restores no default. *)
Theorem LoadClients_nothing_to_load (cm : ClientManager E) (w : W) :
  (forall err,
     os_ReadDir (E := E) w (cm_dataDir cm) = inr err ->
     LoadClients cm w
       = (cm, w, Some (fmt_Errorf_w "failed to read data directory: " err), [])) /\
  (forall entries,
     os_ReadDir (E := E) w (cm_dataDir cm) = inl entries ->
     (forall entry, entry ∈ entries ->
        IsDir entry = false \/
        os_Stat_IsNotExist (E := E) w
          (filepath_Join (W := W) (E := E) [cm_dataDir cm; Name entry; "state.json"])
          = true) ->
     LoadClients cm w = (cm, w, None, [])).
Proof.
  split.
  - intros err Hread. unfold LoadClients. rewrite Hread. reflexivity.
  - intros entries Hread Hskip. unfold LoadClients. rewrite Hread.
    assert (Hloop : fold_left load_one entries (cm, w, []) = (cm, w, [])).
    { clear Hread. induction entries as [| entry rest IH]; [reflexivity |].
      cbn [fold_left]. rewrite load_one_skips.
      - apply IH. intros e He. apply Hskip. right. exact He.
      - apply Hskip. left. }
    rewrite Hloop. reflexivity.
Qed.

(** What a turn of the loop of [LoadClients] does to the map and to the list
    of the clients left to a goroutine. *)
Lemma load_one_grows (acc : LoadAcc) (entry : DirEntry) :
  cm_dataDir (load_one acc entry).1.1 = cm_dataDir acc.1.1 /\
  saveTimer (load_one acc entry).1.1 = saveTimer acc.1.1 /\
  (forall k, k <> Name entry ->
     clients (load_one acc entry).1.1 !! k = clients acc.1.1 !! k) /\
  (clients (load_one acc entry).1.1 !! Name entry = clients acc.1.1 !! Name entry \/
   (IsDir entry = true /\ is_Some (clients (load_one acc entry).1.1 !! Name entry))) /\
  ((load_one acc entry).2 = acc.2 \/
   ((load_one acc entry).2 = (acc.2 ++ [Name entry])%list /\ IsDir entry = true /\
    is_Some (clients (load_one acc entry).1.1 !! Name entry))).
Proof.
  destruct acc as [[cm w] spawned]. unfold load_one. cbn [fst snd].
  destruct (IsDir entry) eqn:Hdir; cbn [negb]; [| repeat split; auto].
  destruct (os_Stat_IsNotExist w _); [repeat split; auto |].
  destruct (os_ReadFile w _) as [data | err]; [| cbn; repeat split; auto].
  destruct (json_Unmarshal data) as [state | err]; [| cbn; repeat split; auto].
  destruct (NewClient w (Name entry) (cm_dataDir cm)) as [w1 [c | err]];
    [| cbn; repeat split; auto].
  cbn [set_clients cm_dataDir clients].
  assert (Hnew : is_Some (<[Name entry := c]> (clients cm) !! Name entry))
    by (rewrite lookup_insert_eq; eauto).
  destruct (os_ReadFile w1 _) as [marker | err];
    destruct (String.eqb (cs_Status state) StatusConnected || cs_Connected state);
    cbn; repeat split; auto;
    intros k Hk; apply lookup_insert_ne; congruence.
Qed.

Lemma load_loop_grows (entries : list DirEntry) (acc : LoadAcc) :
  cm_dataDir (fold_left load_one entries acc).1.1 = cm_dataDir acc.1.1 /\
  saveTimer (fold_left load_one entries acc).1.1 = saveTimer acc.1.1 /\
  (forall k, (forall entry, entry ∈ entries -> IsDir entry = true -> Name entry <> k) ->
     clients (fold_left load_one entries acc).1.1 !! k = clients acc.1.1 !! k) /\
  (forall k, is_Some (clients acc.1.1 !! k) ->
     is_Some (clients (fold_left load_one entries acc).1.1 !! k)) /\
  (forall id, id ∈ (fold_left load_one entries acc).2 ->
     id ∈ acc.2 \/
     (is_Some (clients (fold_left load_one entries acc).1.1 !! id) /\
      exists entry, entry ∈ entries /\ IsDir entry = true /\ Name entry = id)).
Proof.
  revert acc. induction entries as [| entry rest IH]; intros acc; cbn [fold_left].
  - repeat split; auto.
  - destruct (IH (load_one acc entry)) as (Hdir & Htimer & Hother & Hkeep & Hsp).
    destruct (load_one_grows acc entry) as (Hdir1 & Htimer1 & Hother1 & Hname1 & Hsp1).
    assert (Hkeep1 : forall k, is_Some (clients acc.1.1 !! k) ->
                               is_Some (clients (load_one acc entry).1.1 !! k)).
    { intros k Hk. destruct (decide (k = Name entry)) as [-> | Hne].
      - destruct Hname1 as [-> | [_ Hsome]]; assumption.
      - rewrite Hother1 by exact Hne. exact Hk. }
    split; [congruence |]. split; [congruence |]. split; [| split].
    + intros k Hk. rewrite Hother.
      * destruct (decide (k = Name entry)) as [-> | Hne].
        -- destruct Hname1 as [-> | [Hisdir _]]; [reflexivity |].
           exfalso. apply (Hk entry); [left | exact Hisdir | reflexivity].
        -- apply Hother1, Hne.
      * intros e He. apply Hk. right. exact He.
    + intros k Hk. apply Hkeep, Hkeep1, Hk.
    + intros id Hid. destruct (Hsp id Hid) as [Hin | (Hsome & e & He & Hisdir & Hname)].
      * destruct Hsp1 as [Hsame | (Hadd & Hisdir & Hsome)].
        -- left. rewrite <- Hsame. exact Hin.
        -- rewrite Hadd in Hin. apply elem_of_app in Hin as [Hin | Hin]; [left; exact Hin |].
           apply list_elem_of_singleton in Hin as ->. right. split.
           ++ apply Hkeep, Hsome.
           ++ exists entry. repeat split; [left | exact Hisdir].
      * right. split; [exact Hsome |]. exists e. repeat split; [right | |]; assumption.
Qed.

(** X25. When the data directory can be read, [LoadClients] succeeds
    whatever happens to the single clients.  It removes no client; a key it
    adds or replaces is the name of a directory of the data directory; and
    every client it leaves to a reconnecting goroutine is in the map and is
    named after such a directory. *)
Theorem LoadClients_keys (cm : ClientManager E) (w : W) (entries : list DirEntry) :
  os_ReadDir (E := E) w (cm_dataDir cm) = inl entries ->
  (LoadClients cm w).1.2 = None /\
  cm_dataDir (LoadClients cm w).1.1.1 = cm_dataDir cm /\
  (forall k, is_Some (clients cm !! k) ->
     is_Some (clients (LoadClients cm w).1.1.1 !! k)) /\
  (forall k, (forall entry, entry ∈ entries -> IsDir entry = true -> Name entry <> k) ->
     clients (LoadClients cm w).1.1.1 !! k = clients cm !! k) /\
  (forall id, id ∈ (LoadClients cm w).2 ->
     is_Some (clients (LoadClients cm w).1.1.1 !! id) /\
     exists entry, entry ∈ entries /\ IsDir entry = true /\ Name entry = id).
Proof.
  intros Hread. unfold LoadClients. rewrite Hread.
  destruct (load_loop_grows entries (cm, w, [])) as (Hdir & _ & Hother & Hkeep & Hsp).
  destruct (fold_left load_one entries (cm, w, [])) as [[cm1 w1] spawned].
  cbn in *. repeat split; auto.
  - destruct (Hsp id H) as [Hin | [Hsome _]]; [inversion Hin | exact Hsome].
  - destruct (Hsp id H) as [Hin | [_ Hentry]]; [inversion Hin | exact Hentry].
Qed.

End RegistryWorld.

(** * Properties of the configuration and of the middlewares *)

Section ConfigFacts.
Context {W : Type} `{!Host W}.


(** X26. In the configuration [Load] returns, every field is the value of
    its environment variable when that is not empty; otherwise it is the
    field of the configuration file read over the defaults, or the default
    (":8080", "changeme", "./whatsapp-data") when no file is named.  The data
    directory of that configuration is the one [Load] has made. *)
Theorem Load_precedence (w w' : W) (configFile : string) (cfg : Config) :
  Load w configFile = (w', inl cfg) ->
  exists base,
    (if String.eqb configFile ""
     then base = mkConfig ":8080" "changeme" "./whatsapp-data"
     else loadFromFile w configFile (mkConfig ":8080" "changeme" "./whatsapp-data")
          = inl base) /\
    ListenAddr cfg = from_env w "LISTEN_ADDR" (ListenAddr base) /\
    APIKey cfg = from_env w "API_KEY" (APIKey base) /\
    WhatsappDataDir cfg = from_env w "WHATSAPP_DATA_DIR" (WhatsappDataDir base) /\
    host_MkdirAll w (WhatsappDataDir cfg) = (w', None).
Proof.
  unfold Load. intros Hload.
  destruct (String.eqb configFile ""); cbn [negb] in Hload.
  - cbn in Hload.
    destruct (host_MkdirAll w _) as [w1 [err |]] eqn:Hmk; [discriminate |].
    injection Hload as <- <-. eexists. split; [reflexivity |]. cbn. auto.
  - destruct (loadFromFile w configFile _) as [base | err] eqn:Hfile; [| discriminate].
    cbn in Hload.
    destruct (host_MkdirAll w _) as [w1 [err |]] eqn:Hmk; [discriminate |].
    injection Hload as <- <-. exists base. split; [reflexivity |]. cbn. auto.
Qed.


(** ** The API key middleware *)

(** X28. [APIKeyMiddleware] lets a request through exactly when its path
    begins with "/ui/" or its key is the API key, the key being the
    [X-API-Key] header, or the [api_key] query parameter when the header is
    empty (a wrong header is not made up for by the parameter).  Every other
    request is answered 401 "Invalid API key" and aborted. *)
Theorem APIKeyMiddleware_decision (apiKey : string) (req : Request) :
  let key := if String.eqb (header_api_key req) ""
             then query_api_key req else header_api_key req in
  (APIKeyMiddleware apiKey req = [c_Next] <->
     String.prefix "/ui/" (url_path req) = true \/ key = apiKey) /\
  (APIKeyMiddleware apiKey req = [c_Next] \/
   APIKeyMiddleware apiKey req
     = [c_JSON 401 [("error", JString "Invalid API key")]; c_Abort]).
Proof.
  cbv zeta. unfold APIKeyMiddleware.
  destruct (String.prefix "/ui/" (url_path req)).
  - split; [tauto | left; reflexivity].
  - destruct (String.eqb_spec
                (if String.eqb (header_api_key req) ""
                 then query_api_key req else header_api_key req) apiKey) as [Hk | Hk];
      cbn [negb].
    + split; [tauto | left; reflexivity].
    + split; [| right; reflexivity].
      split; [discriminate | intros [Hbad | Hbad]; [discriminate | contradiction]].
Qed.

(** ** The UI middleware and the login *)

Lemma expectedAPIKey_nonempty (w : W) : expectedAPIKey w <> "".
Proof.
  unfold expectedAPIKey.
  destruct (String.eqb_spec (os_Getenv w "API_KEY") ""); [discriminate | assumption].
Qed.

(** When [UIAuthMiddleware] lets a request through. *)
Lemma UIAuthMiddleware_passes (w : W) (req : Request) :
  UIAuthMiddleware w req = [c_Next] <->
  url_path req = "/ui/login" \/ cookie_api_key req = Some (expectedAPIKey w).
Proof.
  pose proof (expectedAPIKey_nonempty w) as Hne.
  unfold UIAuthMiddleware.
  destruct (String.eqb_spec (url_path req) "/ui/login") as [Hp | Hp]; [tauto |].
  destruct (cookie_api_key req) as [key |].
  - destruct (String.eqb_spec key "") as [-> | Hk].
    + split; [discriminate | intros [Hbad | [= Hbad]]; [contradiction | congruence]].
    + destruct (String.eqb_spec key (expectedAPIKey w)) as [-> | Hw]; cbn [negb].
      * tauto.
      * split; [discriminate | intros [Hbad | [= Hbad]]; [contradiction | congruence]].
  - split; [discriminate | intros [Hbad | Hbad]; [contradiction | discriminate]].
Qed.


(** X30. The login accepts exactly the keys the UI middleware accepts as a
    cookie: [login] sets the [api_key] cookie to the posted key and redirects
    to the dashboard exactly when a page request carrying that key as its
    cookie passes [UIAuthMiddleware]; otherwise it shows the login page again
    and sets no cookie.  The cookie lasts a day when "remember" is "1" and an
    hour otherwise. *)
Theorem login_accepts_what_the_middleware_accepts (w : W) (form page : Request) :
  url_path page <> "/ui/login" ->
  cookie_api_key page = Some (form_api_key form) ->
  (UIAuthMiddleware w page = [c_Next] <->
     login w form
       = [c_SetCookie "api_key" (form_api_key form)
            (if String.eqb (form_remember form) "1" then 86400 else 3600)
            "/" "" false true;
          c_Redirect 302 "/ui/dashboard"]) /\
  (UIAuthMiddleware w page <> [c_Next] ->
     login w form
       = [c_HTML 200 "login_alt.html"
            [("Title", JString "Login"); ("Error", JString "Invalid API Key")]]).
Proof.
  intros Hpath Hcookie.
  pose proof (UIAuthMiddleware_passes w page) as Hpass.
  unfold login.
  destruct (String.eqb_spec (form_api_key form) (expectedAPIKey w)) as [Hk | Hk];
    cbn [negb].
  - assert (Hok : UIAuthMiddleware w page = [c_Next])
      by (apply Hpass; right; rewrite Hcookie, Hk; reflexivity).
    split.
    + split; [intros _ | intros _; exact Hok].
      destruct (String.eqb (form_remember form) "1"); reflexivity.
    + intros Hbad. contradiction.
  - split.
    + split; [| discriminate].
      intros Hok. apply Hpass in Hok as [Hbad | Hbad]; [contradiction |].
      rewrite Hcookie in Hbad. congruence.
    + intros _. reflexivity.
Qed.



End ConfigFacts.

(** * The further properties on the small engine, platform and host *)

(** ** Connect *)

Lemma Connect_failure_recorded_witness :
  (Connect (Sim.client_of "work" SimMore.refusing_engine) 3).2
    = Some (fmt_Errorf_w "failed to connect: " (errors_New "dial tcp: i/o timeout")) /\
  cs_Status (GetState (Connect (Sim.client_of "work" SimMore.refusing_engine) 3).1)
    = StatusError.
Proof.
  edestruct (Connect_failure_recorded (Sim.client_of "work" SimMore.refusing_engine) 3)
    as (Hres & _ & _ & _ & Hsnap); [reflexivity | reflexivity |].
  split; [exact Hres | apply Hsnap; reflexivity].
Defined.

Lemma Connect_success_status_agrees_witness :
  status (Connect Sim.failed_client 9).1 = StatusDisconnected /\
  cs_Status (GetState (Connect Sim.failed_client 9).1)
    = status (Connect Sim.failed_client 9).1.
Proof.
  edestruct (Connect_success_status_agrees Sim.failed_client 9)
    as (_ & Hstatus & Hsnap); [reflexivity | reflexivity |].
  split; [exact Hstatus | exact Hsnap].
Defined.

(** ** GenerateQR *)

Lemma GenerateQR_calls_witness :
  calls_of (GenerateQR (Sim.logging_client Sim.connected_engine) 5 false).1
    = [CallDisconnect; CallGetQRChannel; CallConnect].
Proof.
  assert (Hout : IsLoggedIn (client (Sim.logging_client Sim.connected_engine)) = false)
    by reflexivity.
  rewrite (GenerateQR_calls (Sim.logging_client Sim.connected_engine) 5 false Hout).
  reflexivity.
Defined.

Lemma GenerateQR_failure_has_no_code_witness :
  (GenerateQR (Sim.client_of "work" Sim.connected_engine) 5 true).2.1 = "".
Proof.
  apply (GenerateQR_failure_has_no_code (Sim.client_of "work" Sim.connected_engine) 5 true
           (errors_New "timeout waiting for QR code")).
  reflexivity.
Defined.

(** A QR code is handed out and the error of an earlier attempt stays. *)
Lemma GenerateQR_status_written_before_wait_witness :
  (GenerateQR Sim.failed_client 5 false).2 = ("2@abc", None) /\
  status (GenerateQR Sim.failed_client 5 false).1 = StatusError /\
  connError (GenerateQR Sim.failed_client 5 false).1 = "dial tcp: connection refused".
Proof.
  assert (Hout : IsLoggedIn (client Sim.failed_client) = false) by reflexivity.
  pose proof (GenerateQR_status_written_before_wait Sim.failed_client 5 false Hout)
    as Hkept.
  cbn in Hkept. destruct Hkept as [Hstatus Herror].
  split; [reflexivity | split; [exact Hstatus | exact Herror]].
Defined.

(** ** CreateClient *)

Lemma CreateClient_failure_changes_nothing_witness :
  (CreateClient Sim.work_registry Sim.empty_world "work").1.1 = Sim.work_registry.
Proof.
  apply (CreateClient_failure_changes_nothing Sim.work_registry Sim.empty_world "work"
           (errors_New "client with ID work already exists")).
  vm_compute. reflexivity.
Defined.

Lemma CreateClient_success_witness :
  GetClient (CreateClient Sim.new_registry Sim.empty_world "work").1.1 "work"
    = inl (Sim.client_of "work" Sim.fresh_engine) /\
  defaultClient (CreateClient Sim.new_registry Sim.empty_world "work").1.1 = "work".
Proof.
  assert (Hmade : (CreateClient Sim.new_registry Sim.empty_world "work").2
                  = inl (Sim.client_of "work" Sim.fresh_engine))
    by (vm_compute; reflexivity).
  destruct (CreateClient_success Sim.new_registry Sim.empty_world "work" _ Hmade)
    as (_ & _ & _ & _ & Hget & _ & Hdefault).
  split; [exact Hget | rewrite Hdefault; vm_compute; reflexivity].
Defined.

(** The first save fails, is reported, and the client is there. *)
Lemma CreateClient_first_save_witness :
  (CreateClient (W := Logged Sim.SimWorld) Sim.new_registry
     (SimMore.work_state_readonly_world, []) "work").2
    = inl (Sim.client_of "work" Sim.fresh_engine) /\
  (CreateClient (W := Logged Sim.SimWorld) Sim.new_registry
     (SimMore.work_state_readonly_world, []) "work").1.2.2
    = [SysMkdirAll "data/work";
       SysWriteFile "data/work/state.json" "logged_out";
       SysPrintf (initial_save_warning "work"
                    (fmt_Errorf_w "failed to write state file: "
                                  (errors_New "permission denied")))].
Proof.
  assert (Hmade : (CreateClient Sim.new_registry SimMore.work_state_readonly_world "work").2
                  = inl (Sim.client_of "work" Sim.fresh_engine))
    by (vm_compute; reflexivity).
  destruct (CreateClient_first_save Sim.new_registry SimMore.work_state_readonly_world []
              "work" _ Hmade) as (Hres & Hlog).
  split; [exact Hres |]. rewrite Hlog. vm_compute. reflexivity.
Defined.

(** ** LoadClients *)

(** A data directory with a marker and no client restores no default. *)
Lemma LoadClients_nothing_to_load_witness :
  LoadClients Sim.new_registry SimMore.marker_only_world
    = (Sim.new_registry, SimMore.marker_only_world, None, []).
Proof.
  apply (proj2 (LoadClients_nothing_to_load Sim.new_registry SimMore.marker_only_world)
           [mkDirEntry "notes.txt" false]).
  - reflexivity.
  - intros entry Hin. apply list_elem_of_singleton in Hin as ->. left. reflexivity.
Defined.

Lemma LoadClients_keys_witness :
  (LoadClients Sim.new_registry Sim.stale_marker_world).1.2 = None /\
  (forall id, id ∈ (LoadClients Sim.new_registry Sim.stale_marker_world).2 ->
     is_Some (clients (LoadClients Sim.new_registry Sim.stale_marker_world).1.1.1 !! id)).
Proof.
  assert (Hread : os_ReadDir Sim.stale_marker_world (cm_dataDir Sim.new_registry)
                  = inl [mkDirEntry "work" true]) by reflexivity.
  destruct (LoadClients_keys Sim.new_registry Sim.stale_marker_world _ Hread)
    as (Hres & _ & _ & _ & Hspawned).
  split; [exact Hres |]. intros id Hid. apply (Hspawned id Hid).
Defined.

(** ** The configuration and the login *)

(** The variable wins over the file. *)
Lemma Load_precedence_witness :
  Load SimHost.keyed_host "gateway.json"
    = (SimHost.keyed_host, inl (mkConfig ":8080" "s3cret" "./whatsapp-data")) /\
  exists base,
    loadFromFile SimHost.keyed_host "gateway.json"
      (mkConfig ":8080" "changeme" "./whatsapp-data") = inl base /\
    APIKey base = "from-file".
Proof.
  assert (Hload : Load SimHost.keyed_host "gateway.json"
                  = (SimHost.keyed_host, inl (mkConfig ":8080" "s3cret" "./whatsapp-data")))
    by reflexivity.
  destruct (Load_precedence _ _ _ _ Hload) as (base & Hbase & _).
  split; [exact Hload |]. exists base. cbn in Hbase. split; [exact Hbase |].
  cbv in Hbase. injection Hbase as <-. reflexivity.
Defined.


Lemma login_accepts_what_the_middleware_accepts_witness :
  login SimHost.keyed_host (SimHost.login_form "s3cret" "1")
    = [c_SetCookie "api_key" "s3cret" 86400 "/" "" false true;
       c_Redirect 302 "/ui/dashboard"].
Proof.
  edestruct (login_accepts_what_the_middleware_accepts SimHost.keyed_host
               (SimHost.login_form "s3cret" "1")
               (SimHost.page_request "/ui/dashboard" (Some "s3cret")))
    as [Hsame _]; [discriminate | reflexivity |].
  apply Hsame. reflexivity.
Defined.


(** ** Logout, SetDefaultClient and DeleteClient *)

(** A logout the engine refuses is reported and recorded. *)
Lemma Logout_calls_witness :
  calls_of (Logout (Sim.logging_client SimMore.clinging_engine) 4).1 = [CallLogout] /\
  (Logout (Sim.logging_client SimMore.clinging_engine) 4).2
    = Some (fmt_Errorf_w "failed to logout: " (errors_New "logout: timed out")) /\
  status (Logout (Sim.logging_client SimMore.clinging_engine) 4).1 = StatusError.
Proof.
  destruct (Logout_calls (Sim.logging_client SimMore.clinging_engine) 4)
    as (Hcalls & _ & Hfail & _).
  destruct (Hfail (errors_New "logout: timed out")) as (Hres & Hstatus & _);
    [reflexivity | reflexivity |].
  split; [rewrite Hcalls; reflexivity | split; [exact Hres | exact Hstatus]].
Defined.

(** The default changes in memory though the marker cannot be written. *)
Lemma SetDefaultClient_outcome_witness :
  GetDefaultClient (SetDefaultClient Sim.two_registry Sim.marker_readonly_world "work").1.1
    = "work" /\
  (SetDefaultClient Sim.two_registry Sim.marker_readonly_world "work").2
    = Some (fmt_Errorf_w "failed to save default client: "
                         (errors_New "permission denied")).
Proof.
  destruct (SetDefaultClient_outcome Sim.two_registry Sim.marker_readonly_world "work")
    as (_ & Hfound & _).
  destruct Hfound as (Hdefault & Hres & _); [vm_compute; eexists; reflexivity |].
  split; [exact Hdefault | rewrite Hres; vm_compute; reflexivity].
Defined.

(** The directory stays, a warning is printed, the deletion succeeds. *)
Lemma DeleteClient_platform_calls_witness :
  (DeleteClient (W := Logged Sim.SimWorld) Sim.work_registry
     (SimMore.sticky_world, []) "work" []).2 = None /\
  (DeleteClient (W := Logged Sim.SimWorld) Sim.work_registry
     (SimMore.sticky_world, []) "work" []).1.2.2
    = [SysSleep (1 * time_Second); SysRemoveAll "data/work";
       SysPrintf (remove_warning "work" (errors_New "permission denied"))].
Proof.
  destruct (DeleteClient_platform_calls Sim.work_registry SimMore.sticky_world []
              "work" []) as (_ & Hfound).
  cbv zeta in Hfound.
  destruct Hfound as (Hres & Hlog); [vm_compute; eexists; reflexivity |].
  split; [exact Hres | rewrite Hlog; vm_compute; reflexivity].
Defined.

(** A client that is already connected is left with its stale status. *)
Lemma Connect_calls_witness :
  calls_of (Connect (Sim.logging_client Sim.connected_engine) 4).1 = [] /\
  status (Connect (Sim.logging_client Sim.connected_engine) 4).1 = StatusConnected.
Proof.
  destruct (Connect_calls (Sim.logging_client Sim.connected_engine) 4)
    as (Hcalls & Hnoop).
  destruct Hnoop as (_ & Hstatus & _); [reflexivity |].
  split; [rewrite Hcalls; reflexivity | exact Hstatus].
Defined.
